(** * OAuth redirect bridge (app/app.js): a shallow embedding and its properties

    The program is an Express application with two routes.  [GET /] redirects
    the browser to the identity provider; [GET /oauth2/callback] either
    forwards the callback to the instance named in the [state] parameter or
    completes the flow locally: code exchange, credential file, two CLI calls,
    final redirect.

    Layout of the development:
    - strings as byte sequences, JavaScript values and their coercions;
    - the [application/x-www-form-urlencoded] format behind [URLSearchParams];
    - the URL record with the getters and setters the handlers use;
    - [JSON.stringify];
    - the platform operations the program calls but does not define
      ([JSON.parse], [new URL], [url.format], the OAuth2 client);
    - effects, programs and their runs against an arbitrary environment;
    - the two handlers and [handleError], transcribed from app.js;
    - a reference platform used to evaluate the handlers on concrete requests;
    - the properties. *)

From Stdlib Require Import String Ascii List NArith Bool Lia DecimalString.
From stdpp Require Import gmap strings.
Import ListNotations.
Open Scope string_scope.

(** ** Strings

    A JavaScript string is modelled by the byte sequence of its UTF-8
    encoding, held in a Rocq [string]. *)

Definition dquote : string := String "034"%char "".
Definition backslash : string := String "092"%char "".

(** [String(x)] for a variable that holds a string or [undefined], as in
    ['https://' + process.env.HEROKU_APP_NAME] and in template literals. *)
Definition str_or_undefined (o : option string) : string :=
  match o with
  | Some s => s
  | None => "undefined"
  end.

(** JavaScript truthiness of a string-or-undefined variable: [undefined] and
    the empty string are falsy. *)
Definition truthy (o : option string) : bool :=
  match o with
  | Some s => negb (s =? "")
  | None => false
  end.

Definition ascii_in (c : ascii) (lo hi : ascii) : bool :=
  (N_of_ascii lo <=? N_of_ascii c)%N && (N_of_ascii c <=? N_of_ascii hi)%N.

Definition is_digit (c : ascii) : bool := ascii_in c "0" "9".
Definition is_upper (c : ascii) : bool := ascii_in c "A" "Z".
Definition is_lower (c : ascii) : bool := ascii_in c "a" "z".
Definition is_alnum (c : ascii) : bool := is_digit c || is_upper c || is_lower c.

Definition hex_upper (n : N) : ascii :=
  if (n <? 10)%N then ascii_of_N (48 + n) else ascii_of_N (55 + n).
Definition hex_lower (n : N) : ascii :=
  if (n <? 10)%N then ascii_of_N (48 + n) else ascii_of_N (87 + n).

Definition hex_value (c : ascii) : option N :=
  if is_digit c then Some (N_of_ascii c - 48)%N
  else if ascii_in c "A" "F" then Some (N_of_ascii c - 55)%N
  else if ascii_in c "a" "f" then Some (N_of_ascii c - 87)%N
  else None.

(** Whether a byte occurs in a string. *)
Fixpoint mentions (c : ascii) (s : string) : bool :=
  match s with
  | "" => false
  | String d r => (d =? c)%char || mentions c r
  end.

Definition N_to_string (n : N) : string := NilEmpty.string_of_uint (N.to_uint n).

(** ** JavaScript values

    The values the handlers meet: results of [JSON.parse], the members of
    [req.query] (strings, arrays and nested objects, or [undefined] when the
    parameter is missing) and results of property reads.  A number carries its
    decimal rendering ([Number.prototype.toString]); the program does no
    arithmetic. *)

#[local] Unset Elimination Schemes.
Inductive jsval : Type :=
| VUndefined
| VNull
| VBool (b : bool)
| VNumber (repr : string)
| VString (s : string)
| VArray (elems : list jsval)
| VObject (fields : list (string * jsval)).
#[local] Set Elimination Schemes.

(** Errors are values with a name and a message. *)
Record js_error : Type := mk_error { err_name : string; err_message : string }.

Definition result (A : Type) : Type := (js_error + A)%type.

(** The last binding of a key: in an object literal and in [JSON.parse] a
    repeated key keeps its last value. *)
Fixpoint assoc_last (key : string) (fields : list (string * jsval)) : option jsval :=
  match fields with
  | [] => None
  | (k, v) :: rest =>
      match assoc_last key rest with
      | Some v' => Some v'
      | None => if k =? key then Some v else None
      end
  end.

(** The abstract operation ToString, which can throw.  An array joins the
    strings of its elements with commas, [null] and [undefined] elements
    giving the empty string.  An object goes through its [toString]: the one
    of [Object.prototype] answers [[object Object]], but an own member named
    [toString] hides it, and since no value of a query or of a JSON text is a
    function, the conversion then finds nothing to call (the inherited
    [valueOf] returns the object itself) and throws a TypeError. *)
Definition cannot_convert : js_error :=
  mk_error "TypeError" "Cannot convert object to primitive value".

Fixpoint ToString (v : jsval) : result string :=
  match v with
  | VUndefined => inr "undefined"
  | VNull => inr "null"
  | VBool true => inr "true"
  | VBool false => inr "false"
  | VNumber r => inr r
  | VString s => inr s
  | VArray l =>
      (fix join (l : list jsval) : result string :=
         match l with
         | [] => inr ""
         | x :: r =>
             match (match x with
                    | VUndefined | VNull => inr ""
                    | _ => ToString x
                    end) with
             | inl e => inl e
             | inr sx =>
                 match r with
                 | [] => inr sx
                 | _ :: _ =>
                     match join r with
                     | inl e => inl e
                     | inr sr => inr (sx ++ "," ++ sr)
                     end
                 end
             end
         end) l
  | VObject fields =>
      match assoc_last "toString" fields with
      | Some _ => inl cannot_convert
      | None => inr "[object Object]"
      end
  end.

(** Property read [v.key].  Reading from [null] or [undefined] throws a
    TypeError; an object gives its own property or [undefined]; the other
    values give [undefined].  This covers the names the program reads
    ([state], [code], [redirectURL], [result], [url]), none of which is an
    index or a member of a built-in prototype. *)
Definition js_get (v : jsval) (key : string) : result jsval :=
  match v with
  | VUndefined =>
      inl (mk_error "TypeError"
             ("Cannot read properties of undefined (reading '" ++ key ++ "')"))
  | VNull =>
      inl (mk_error "TypeError"
             ("Cannot read properties of null (reading '" ++ key ++ "')"))
  | VObject fields =>
      inr (match assoc_last key fields with Some x => x | None => VUndefined end)
  | _ => inr VUndefined
  end.

(** ** application/x-www-form-urlencoded (URLSearchParams) *)

(** Bytes the serializer leaves as they are: ASCII alphanumerics and [*-._]. *)
Definition urlencoded_safe (c : ascii) : bool :=
  is_alnum c
  || (c =? "*")%char || (c =? "-")%char || (c =? ".")%char || (c =? "_")%char.

Definition percent_encode_byte (c : ascii) : string :=
  String "%" (String (hex_upper (N_of_ascii c / 16))
                (String (hex_upper (N_of_ascii c mod 16)) "")).

Fixpoint urlencoded_encode (s : string) : string :=
  match s with
  | "" => ""
  | String c r =>
      (if (c =? " ")%char then "+"
       else if urlencoded_safe c then String c ""
       else percent_encode_byte c) ++ urlencoded_encode r
  end.

(** The serializer: [name=value] tuples joined by [&]. *)
Fixpoint urlencoded_serialize (l : list (string * string)) : string :=
  match l with
  | [] => ""
  | (n, v) :: rest =>
      let tuple := urlencoded_encode n ++ "=" ++ urlencoded_encode v in
      match rest with
      | [] => tuple
      | _ :: _ => tuple ++ "&" ++ urlencoded_serialize rest
      end
  end.

(** Splitting at every occurrence of a separator; the result is never empty. *)
Fixpoint split_on (sep : ascii) (s : string) : list string :=
  match s with
  | "" => [""]
  | String c r =>
      if (c =? sep)%char then "" :: split_on sep r
      else match split_on sep r with
           | h :: t => String c h :: t
           | [] => [String c ""]
           end
  end.

(** Splitting at the first occurrence of a separator, if any. *)
Fixpoint break_at (sep : ascii) (s : string) : string * option string :=
  match s with
  | "" => ("", None)
  | String c r =>
      if (c =? sep)%char then ("", Some r)
      else let (a, b) := break_at sep r in (String c a, b)
  end.

Fixpoint plus_to_space (s : string) : string :=
  match s with
  | "" => ""
  | String c r => String (if (c =? "+")%char then " "%char else c) (plus_to_space r)
  end.

(** Percent-decoding: [%XY] with two hexadecimal digits becomes one byte, any
    other byte stands for itself. *)
Fixpoint percent_decode (s : string) : string :=
  match s with
  | "" => ""
  | String c r =>
      match r with
      | String h (String l r') =>
          match (if (c =? "%")%char then hex_value h else None), hex_value l with
          | Some a, Some b => String (ascii_of_N (16 * a + b)) (percent_decode r')
          | _, _ => String c (percent_decode r)
          end
      | _ => String c (percent_decode r)
      end
  end.

(** UTF-8 decoding with replacement, on the bytes (a string being the bytes
    of its UTF-8 encoding): the decoder of the Encoding Standard, which copies
    every well-formed sequence and puts U+FFFD, the bytes [EF BF BD], in place
    of each error.  [pending] holds the bytes of the sequence being read,
    [needed] counts the bytes it still lacks, and the next byte has to lie
    between [lo] and [hi]. *)
Definition replacement : string := String "239" (String "191" (String "189" "")).

Definition byte_in (b : ascii) (lo hi : N) : bool :=
  (lo <=? N_of_ascii b)%N && (N_of_ascii b <=? hi)%N.

Definition utf8_lead (b : ascii) : option (nat * N * N) :=
  if byte_in b 194 223 then Some (1%nat, 128%N, 191%N)
  else if byte_in b 224 239 then
    Some (2%nat, if (N_of_ascii b =? 224)%N then 160%N else 128%N,
          if (N_of_ascii b =? 237)%N then 159%N else 191%N)
  else if byte_in b 240 244 then
    Some (3%nat, if (N_of_ascii b =? 240)%N then 144%N else 128%N,
          if (N_of_ascii b =? 244)%N then 143%N else 191%N)
  else None.

Fixpoint utf8_decode_from (pending : string) (needed : nat) (lo hi : N) (s : string)
  : string :=
  match s with
  | "" =>
      match needed with
      | O => ""
      | S _ => replacement
      end
  | String b r =>
      let start (emitted : string) : string :=
        if byte_in b 0 127 then emitted ++ String b (utf8_decode_from "" 0 128 191 r)
        else match utf8_lead b with
             | Some (n, lo', hi') => emitted ++ utf8_decode_from (String b "") n lo' hi' r
             | None => emitted ++ replacement ++ utf8_decode_from "" 0 128 191 r
             end in
      match needed with
      | O => start ""
      | S n =>
          if byte_in b lo hi then
            match n with
            | O => pending ++ String b (utf8_decode_from "" 0 128 191 r)
            | S _ => utf8_decode_from (pending ++ String b "") n 128 191 r
            end
          else start replacement
      end
  end.

Definition utf8_decode (s : string) : string := utf8_decode_from "" 0 128 191 s.

(** Well-formed UTF-8, by the table of byte sequences of the Unicode
    Standard. *)
Inductive well_formed_utf8 : string -> Prop :=
| wf_empty : well_formed_utf8 ""
| wf_one (b : ascii) (r : string) :
    byte_in b 0 127 = true -> well_formed_utf8 r -> well_formed_utf8 (String b r)
| wf_two (b1 b2 : ascii) (r : string) :
    byte_in b1 194 223 = true -> byte_in b2 128 191 = true ->
    well_formed_utf8 r -> well_formed_utf8 (String b1 (String b2 r))
| wf_three (b1 b2 b3 : ascii) (r : string) :
    byte_in b1 224 239 = true ->
    byte_in b2 (if (N_of_ascii b1 =? 224)%N then 160 else 128)
      (if (N_of_ascii b1 =? 237)%N then 159 else 191) = true ->
    byte_in b3 128 191 = true ->
    well_formed_utf8 r -> well_formed_utf8 (String b1 (String b2 (String b3 r)))
| wf_four (b1 b2 b3 b4 : ascii) (r : string) :
    byte_in b1 240 244 = true ->
    byte_in b2 (if (N_of_ascii b1 =? 240)%N then 144 else 128)
      (if (N_of_ascii b1 =? 244)%N then 143 else 191) = true ->
    byte_in b3 128 191 = true -> byte_in b4 128 191 = true ->
    well_formed_utf8 r ->
    well_formed_utf8 (String b1 (String b2 (String b3 (String b4 r)))).

(** Decoding a name or a value: [+] is a space, [%XY] a byte, and the bytes
    are decoded as UTF-8 with replacement. *)
Definition urlencoded_decode (s : string) : string :=
  utf8_decode (percent_decode (plus_to_space s)).

(** The parser: split at [&], drop empty sequences, split each at its first
    [=], turn [+] into a space and percent-decode name and value. *)
Definition urlencoded_parse_tuple (s : string) : string * string :=
  let (n, v) := break_at "=" s in
  (urlencoded_decode n, urlencoded_decode (match v with Some x => x | None => "" end)).

Definition urlencoded_parse (s : string) : list (string * string) :=
  map urlencoded_parse_tuple (List.filter (fun x => negb (x =? "")) (split_on "&" s)).

(** ** The URL record

    The components of a parsed URL as the URL Standard keeps them.  A path is
    either opaque (as in [mailto:user@host]) or a list of segments. *)

Inductive url_path : Type :=
| OpaquePath (s : string)
| ListPath (segments : list string).

Record URL : Type := mk_URL {
  url_scheme : string;
  url_username : string;
  url_password : string;
  url_host : option string;
  url_port : option N;
  url_path_of : url_path;
  url_query : option string;
  url_fragment : option string
}.

(** Getter [u.hostname]. *)
Definition hostname (u : URL) : string :=
  match url_host u with
  | Some h => h
  | None => ""
  end.

(** Getter [u.pathname]. *)
Definition pathname (u : URL) : string :=
  match url_path_of u with
  | OpaquePath s => s
  | ListPath segs => String.concat "" (map (fun seg => "/" ++ seg) segs)
  end.

(** The segments of a path given as a string: one optional leading slash,
    then the pieces between slashes.  This is what the path states of the URL
    parser produce on a value without dot segments, backslashes, [?], [#] or
    bytes that need percent-encoding, such as ['/oauth2/callback']. *)
Definition path_segments (value : string) : list string :=
  match value with
  | String "/" r => split_on "/" r
  | _ => split_on "/" value
  end.

(** A URL object: the URL record and the list of its [searchParams]
    object.  The list is filled once, from the query of the URL the object is
    made of, and from then on it is the list that [append] extends and that
    the query is rewritten from. *)
Record URL_object : Type := mk_URL_object {
  url_of :> URL;
  searchParams : list (string * string)
}.

(** The object that [new URL(input)] makes of a parsed URL. *)
Definition URL_object_of (u : URL) : URL_object :=
  mk_URL_object u
    (match url_query u with
     | Some q => urlencoded_parse q
     | None => []
     end).

(** Setter [u.pathname = value]: ignored on a URL with an opaque path. *)
Definition set_pathname (u : URL_object) (value : string) : URL_object :=
  match url_path_of u with
  | OpaquePath _ => u
  | ListPath _ =>
      mk_URL_object
        (mk_URL (url_scheme u) (url_username u) (url_password u) (url_host u)
           (url_port u) (ListPath (path_segments value)) (url_query u) (url_fragment u))
        (searchParams u)
  end.

(** [u.searchParams.append(name, value)]: the tuple goes to the end of the
    list and the query becomes the serialization of the list ([null] when
    that is empty). *)
Definition searchParams_append (u : URL_object) (name value : string) : URL_object :=
  let l := (searchParams u ++ [(name, value)])%list in
  let q := urlencoded_serialize l in
  mk_URL_object
    (mk_URL (url_scheme u) (url_username u) (url_password u) (url_host u)
       (url_port u) (url_path_of u) (if q =? "" then None else Some q) (url_fragment u))
    l.

(** The URL serializer: [u.href] and [u.toString()]. *)
Definition href (u : URL) : string :=
  url_scheme u ++ ":"
  ++ match url_host u with
     | Some h =>
         "//"
         ++ (if (url_username u =? "") && (url_password u =? "") then ""
             else url_username u
                  ++ (if url_password u =? "" then "" else ":" ++ url_password u)
                  ++ "@")
         ++ h
         ++ match url_port u with
            | Some p => ":" ++ N_to_string p
            | None => ""
            end
     | None =>
         match url_path_of u with
         | ListPath ("" :: _ :: _) => "/."
         | _ => ""
         end
     end
  ++ pathname u
  ++ match url_query u with Some q => "?" ++ q | None => "" end
  ++ match url_fragment u with Some f => "#" ++ f | None => "" end.

(** ** JSON.stringify *)

Definition JSON_quote_byte (c : ascii) : string :=
  if (c =? "034")%char then backslash ++ dquote
  else if (c =? "092")%char then backslash ++ backslash
  else if (c =? "008")%char then backslash ++ "b"
  else if (c =? "012")%char then backslash ++ "f"
  else if (c =? "010")%char then backslash ++ "n"
  else if (c =? "013")%char then backslash ++ "r"
  else if (c =? "009")%char then backslash ++ "t"
  else if (N_of_ascii c <? 32)%N then
    backslash ++ "u00"
    ++ String (hex_lower (N_of_ascii c / 16)) (String (hex_lower (N_of_ascii c mod 16)) "")
  else String c "".

Fixpoint JSON_quote_body (s : string) : string :=
  match s with
  | "" => ""
  | String c r => JSON_quote_byte c ++ JSON_quote_body r
  end.

Definition JSON_quote (s : string) : string := dquote ++ JSON_quote_body s ++ dquote.

Definition join_with (sep : string) (l : list string) : string := String.concat sep l.

(** [JSON.stringify(v)]; [None] stands for the result [undefined].  In an
    array [undefined] is written [null], in an object a member whose value is
    [undefined] is left out. *)
Fixpoint JSON_stringify (v : jsval) : option string :=
  match v with
  | VUndefined => None
  | VNull => Some "null"
  | VBool true => Some "true"
  | VBool false => Some "false"
  | VNumber r =>
      Some (if (r =? "NaN") || (r =? "Infinity") || (r =? "-Infinity") then "null" else r)
  | VString s => Some (JSON_quote s)
  | VArray l =>
      Some ("["
            ++ join_with ","
                 ((fix elems (l : list jsval) : list string :=
                     match l with
                     | [] => []
                     | x :: r =>
                         match JSON_stringify x with
                         | Some s => s
                         | None => "null"
                         end :: elems r
                     end) l)
            ++ "]")
  | VObject fields =>
      Some ("{"
            ++ join_with ","
                 ((fix members (l : list (string * jsval)) : list string :=
                     match l with
                     | [] => []
                     | (k, x) :: r =>
                         match JSON_stringify x with
                         | Some s => (JSON_quote k ++ ":" ++ s) :: members r
                         | None => members r
                         end
                     end) fields)
            ++ "}")
  end.

(** ** The platform

    Operations of Node.js and of the jsforce library that app.js calls and
    does not define.  Failing operations return the error they throw. *)

(** The object literal handed to [url.format]. *)
Record url_object : Type := mk_url_object {
  uo_protocol : string;
  uo_hostname : option string;
  uo_pathname : string;
  uo_query : list (string * jsval)
}.

(** The options of [new jsforce.OAuth2({...})]; each one comes from an
    environment variable and may be [undefined]. *)
Record OAuth2 : Type := mk_OAuth2 {
  loginUrl : option string;
  clientId : option string;
  clientSecret : option string;
  redirectUri : option string
}.

Class Platform : Type := {
  (** [JSON.parse(text)] *)
  JSON_parse : string -> result jsval;
  (** [new URL(input)] *)
  new_URL : string -> result URL;
  (** [url.format(urlObject)] *)
  url_format : url_object -> string;
  (** [oauth2.getAuthorizationUrl(params)] *)
  getAuthorizationUrl : OAuth2 -> list (string * string) -> string
}.

(** Two facts about the platform that some properties rely on: without a base
    URL an input with no colon has no scheme and is rejected, and the text
    [undefined] is not JSON. *)
Record PlatformLaws (P : Platform) : Prop := {
  new_URL_needs_scheme :
    forall s, mentions ":" s = false -> exists e, new_URL s = inl e;
  JSON_parse_undefined : exists e, JSON_parse "undefined" = inl e
}.

(** ** Process environment and requests *)

Record process_env : Type := mk_env {
  OAUTH_SALESFORCE_LOGIN_URL : option string;
  OAUTH_SALESFORCE_CLIENT_ID : option string;
  OAUTH_SALESFORCE_CLIENT_SECRET : option string;
  OAUTH_SALESFORCE_REDIRECT_URI : option string;
  HEROKU_APP_NAME : option string;
  SFDX_AUTH_URL : option string
}.

(** The reusable OAuth settings built when the module loads. *)
Definition oauth2 (env : process_env) : OAuth2 :=
  mk_OAuth2 (OAUTH_SALESFORCE_LOGIN_URL env) (OAUTH_SALESFORCE_CLIENT_ID env)
    (OAUTH_SALESFORCE_CLIENT_SECRET env) (OAUTH_SALESFORCE_REDIRECT_URI env).

(** What the handlers read from an Express request. *)
Record request : Type := mk_request {
  req_protocol : string;
  req_hostname : option string;
  req_path : string;
  req_query : list (string * jsval)
}.

(** [req.query.name]: [undefined] when the parameter is missing. *)
Definition query_get (req : request) (name : string) : jsval :=
  match assoc_last name (req_query req) with
  | Some v => v
  | None => VUndefined
  end.

(** ** Effects, programs and runs *)

Inductive log_arg : Type :=
| LogString (s : string)
| LogURL (u : URL).

(** A response as the program asks Express for it: [res.redirect(url)] with
    the default status 302, or [res.status(n).send(body)].  Express starts
    from [String(url)], which can throw; [location] is that string, so a URL
    object counts as its [href] and [undefined] as the text [undefined].
    What Express makes of the string for the header (its encoding, the
    legacy alias [back]) is not part of the model. *)
Inductive response : Type :=
| Redirect (status : N) (location : string)
| Send (status : N) (body : string).

Record userinfo : Type := mk_userinfo {
  ui_id : string;
  ui_organizationId : string;
  ui_url : string
}.

Record exec_output : Type := mk_exec_output { stdout : string; stderr : string }.

(** The calls that reach outside the program.  [Sync] is [FileHandle.sync()],
    the request to flush a file to storage. *)
Inductive effect : Type :=
| SetTimeout (ms : N)
| ConsoleLog (args : list log_arg)
| ConsoleError (err : js_error)
| Authorize (code : jsval)
| ReadFile (path encoding : string)
| Open (path flags : string)
| WriteFile (fd : N) (data : option string)
| Sync (fd : N)
| Exec (command : string)
| Respond (r : response).

(** What each call gives back; a rejected promise or an error passed to a
    callback is the [inl] of a [result]. *)
Definition resp (e : effect) : Type :=
  match e with
  | SetTimeout _ | ConsoleLog _ | ConsoleError _ | Respond _ => unit
  | Authorize _ => result userinfo
  | ReadFile _ _ => result string
  | Open _ _ => result N
  | WriteFile _ _ | Sync _ => result unit
  | Exec _ => result exec_output
  end.

(** Programs: return, throw (or reject), or perform a call and go on with
    its answer. *)
Inductive prog (R : Type) : Type :=
| Ret (r : R)
| Throw (e : js_error)
| Vis (e : effect) (k : resp e -> prog R).

Arguments Ret {R} r.
Arguments Throw {R} e.
Arguments Vis {R} e k.

Fixpoint bind {A B : Type} (p : prog A) (f : A -> prog B) : prog B :=
  match p with
  | Ret a => f a
  | Throw e => Throw e
  | Vis e k => Vis e (fun x => bind (k x) f)
  end.

(** [try { p } catch (err) { h err }], and [promise.catch(h)] on a chain: a
    throw inside a [then] callback rejects the chain and reaches the
    [catch].  The handler [h] of this program never throws, so it does not
    matter that a [try] would not see the rejection of a promise. *)
Fixpoint try_catch {A : Type} (p : prog A) (h : js_error -> prog A) : prog A :=
  match p with
  | Ret a => Ret a
  | Throw e => h e
  | Vis e k => Vis e (fun x => try_catch (k x) h)
  end.

Definition promise_catch {A : Type} := @try_catch A.

Notation "x <- p ;; q" := (bind p (fun x => q))
  (at level 100, p at next level, right associativity).
Notation "p ;;; q" := (bind p (fun _ => q))
  (at level 100, right associativity).

(** A call, with its answer or for its effect alone. *)
Definition perform (e : effect) : prog (resp e) := Vis e (fun x => Ret x).
Definition perform_ (e : effect) : prog unit := Vis e (fun _ => Ret tt).

(** A value or the error thrown in its place. *)
Definition lift {A : Type} (r : result A) : prog A :=
  match r with
  | inl err => Throw err
  | inr a => Ret a
  end.

Definition console_log (args : list log_arg) : prog unit := perform_ (ConsoleLog args).
Definition console_error (err : js_error) : prog unit := perform_ (ConsoleError err).
Definition res_redirect (url : string) : prog unit := perform_ (Respond (Redirect 302 url)).
Definition res_status_send (status : N) (body : string) : prog unit :=
  perform_ (Respond (Send status body)).
Definition authorize (code : jsval) : prog (result userinfo) := perform (Authorize code).
Definition readFile (path encoding : string) : prog string :=
  r <- perform (ReadFile path encoding) ;; lift r.
Definition open (path flags : string) : prog N :=
  r <- perform (Open path flags) ;; lift r.
Definition writeFile (fd : N) (data : option string) : prog unit :=
  r <- perform (WriteFile fd data) ;; lift r.
Definition exec (command : string) : prog exec_output :=
  r <- perform (Exec command) ;; lift r.

(** An event is a call with its answer; the environment answers each call
    knowing everything that happened before. *)
Definition event : Type := { e : effect & resp e }.
Definition oracle : Type := list event -> forall e : effect, resp e.

Inductive outcome (R : Type) : Type :=
| Returned (r : R)
| Uncaught (e : js_error).

Arguments Returned {R} r.
Arguments Uncaught {R} e.

Fixpoint run_from {R : Type} (o : oracle) (hist : list event) (p : prog R)
  : list event * outcome R :=
  match p with
  | Ret r => ([], Returned r)
  | Throw e => ([], Uncaught e)
  | Vis e k =>
      let x := o hist e in
      let ev : event := existT e x in
      let rest := run_from o (hist ++ [ev]) (k x) in
      (ev :: fst rest, snd rest)
  end.

Definition run {R : Type} (o : oracle) (p : prog R) : list event * outcome R :=
  run_from o [] p.

Definition trace {R : Type} (o : oracle) (p : prog R) : list event := fst (run o p).
Definition result_of {R : Type} (o : oracle) (p : prog R) : outcome R := snd (run o p).

(** Readings of a trace. *)
Definition responses (tr : list event) : list response :=
  flat_map (fun ev : event => match projT1 ev with Respond r => [r] | _ => [] end) tr.

Definition executed (tr : list event) : list string :=
  flat_map (fun ev : event => match projT1 ev with Exec c => [c] | _ => [] end) tr.

Definition authorizations (tr : list event) : list jsval :=
  flat_map (fun ev : event => match projT1 ev with Authorize c => [c] | _ => [] end) tr.

Definition file_reads (tr : list event) : list string :=
  flat_map (fun ev : event => match projT1 ev with ReadFile p _ => [p] | _ => [] end) tr.

Definition file_writes (tr : list event) : list (option string) :=
  flat_map (fun ev : event => match projT1 ev with WriteFile _ d => [d] | _ => [] end) tr.


Definition logged_errors (tr : list event) : list js_error :=
  flat_map (fun ev : event => match projT1 ev with ConsoleError e => [e] | _ => [] end) tr.

Definition calls (tr : list event) : list effect := map (fun ev : event => projT1 ev) tr.

(** The answer of a failed call, if the event is one. *)
Definition event_error (ev : event) : option js_error :=
  match ev with
  | existT e x =>
      match e return resp e -> option js_error with
      | Authorize _ => fun x => match x with inl err => Some err | inr _ => None end
      | ReadFile _ _ => fun x => match x with inl err => Some err | inr _ => None end
      | Open _ _ => fun x => match x with inl err => Some err | inr _ => None end
      | WriteFile _ _ => fun x => match x with inl err => Some err | inr _ => None end
      | Sync _ => fun x => match x with inl err => Some err | inr _ => None end
      | Exec _ => fun x => match x with inl err => Some err | inr _ => None end
      | _ => fun _ => None
      end x
  end.

(** The answers of the [exec] and [readFile] calls of a trace. *)
Definition exec_answers (tr : list event) : list (string * result exec_output) :=
  flat_map
    (fun ev : event =>
       match ev with
       | existT e x =>
           match e return resp e -> list (string * result exec_output) with
           | Exec c => fun x => [(c, x)]
           | _ => fun _ => []
           end x
       end) tr.

Definition read_answers (tr : list event) : list (string * result string) :=
  flat_map
    (fun ev : event =>
       match ev with
       | existT e x =>
           match e return resp e -> list (string * result string) with
           | ReadFile p _ => fun x => [(p, x)]
           | _ => fun _ => []
           end x
       end) tr.


(** ** The file system as the program acts on it

    [fs_files] is what a reader of a file sees, [fs_flushed] what is known to
    have reached storage, [fs_handles] the path behind each open handle.
    Opening with flag [w] creates or truncates the file; [writeFile] on a
    handle just opened that way leaves the file holding the data; only
    [sync] moves a file's content to storage.

    The state follows the handler's own file calls only.  A process started
    with [exec] may change any file, and nothing of that is recorded here:
    [fs_step] leaves the state as it is on [Exec].  The state after a trace
    therefore describes the disk for traces that start no process, such as
    the events before the first [exec] of a run. *)




(** ** The application (app/app.js) *)

Section App.

Context {P : Platform}.

(** [handleError(err, res)]: log the error, answer 403 with a fixed body. *)
Definition handleError (err : js_error) : prog unit :=
  console_error err ;;;
  res_status_send 403 "Unexpected internal error".

(** This instance's public origin, as the home page puts it in [state]. *)
Definition own_origin (env : process_env) : string :=
  "https://" ++ str_or_undefined (HEROKU_APP_NAME env) ++ ".herokuapp.com".

(** [app.get('/', ...)] *)
Definition home (env : process_env) (req : request) : prog unit :=
  authURL <- lift (new_URL (getAuthorizationUrl (oauth2 env) [("scope", "id")])) ;;
  let authURL :=
    searchParams_append (URL_object_of authURL) "state"
      (str_or_undefined
         (JSON_stringify (VObject [("redirectURL", VString (own_origin env))]))) in
  console_log [LogString "Redirecting to oauth authorization url"; LogURL authURL] ;;;
  res_redirect (href authURL).

Definition sfdxAuthUrlFilePath : string := "vendor/sfdx/open-app-sfdxurl".

(** The two command lines given to [exec]. *)
Definition store_command : string :=
  "sfdx force:auth:sfdxurl:store --setalias sfdxorg --sfdxurlfile "
  ++ dquote ++ sfdxAuthUrlFilePath ++ dquote ++ " --noprompt --json".

Definition open_command : string :=
  "sfdx force:org:open --targetusername sfdxorg --urlonly --json".

(** The per-instance file a review app reads its credential from. *)
Definition review_app_file (env : process_env) : string :=
  "vendor/sfdx/ra-" ++ str_or_undefined (HEROKU_APP_NAME env).

(** The [else] branch of the [authorize] callback: the [try] block with its
    promise chain. *)
Definition local_completion (env : process_env) : prog unit :=
  try_catch
    (let sfdxAuthUrlFileData := SFDX_AUTH_URL env in
     console_log [LogString ("sfdxAuthUrlFilePath=" ++ sfdxAuthUrlFilePath)] ;;;
     console_log
       [LogString ("sfdxAuthUrlFileData=" ++ str_or_undefined sfdxAuthUrlFileData)] ;;;
     promise_catch
       (sfdxAuthUrlFileData <-
          (if negb (truthy sfdxAuthUrlFileData)
           then fileData <- readFile (review_app_file env) "UTF-8" ;;
                Ret (Some fileData)
           else Ret sfdxAuthUrlFileData) ;;
        fileHandle <- open sfdxAuthUrlFilePath "w" ;;
        writeFile fileHandle sfdxAuthUrlFileData ;;;
        result <- exec store_command ;;
        result <- exec open_command ;;
        jsonResult <- lift (JSON_parse (stdout result)) ;;
        jsonResult_result <- lift (js_get jsonResult "result") ;;
        jsonResult_result_url <- lift (js_get jsonResult_result "url") ;;
        location <- lift (ToString jsonResult_result_url) ;;
        res_redirect location)
       handleError)
    handleError.

(** [requestURL] of the callback handler. *)
Definition requestURL (req : request) : result URL :=
  new_URL (url_format (mk_url_object (req_protocol req) (req_hostname req)
                         (req_path req) (req_query req))).

(** [JSON.parse(v)] and [new URL(v)] on a value: the argument is turned into
    a string first. *)
Definition JSON_parse_of (v : jsval) : result jsval :=
  match ToString v with
  | inl e => inl e
  | inr s => JSON_parse s
  end.

Definition new_URL_of (v : jsval) : result URL :=
  match ToString v with
  | inl e => inl e
  | inr s => new_URL s
  end.

(** The target of a forwarded callback: the [else] branch of the routing
    test, up to [redirectURL.toString()].  Each [append] turns its value into
    a string and throws if that fails. *)
Definition forward_target (redirectURL : URL) (req : request) : result URL_object :=
  let redirectURL := set_pathname (URL_object_of redirectURL) "/oauth2/callback" in
  match ToString (query_get req "state") with
  | inl e => inl e
  | inr state =>
      let redirectURL := searchParams_append redirectURL "state" state in
      match ToString (query_get req "code") with
      | inl e => inl e
      | inr code => inr (searchParams_append redirectURL "code" code)
      end
  end.

(** [app.get('/oauth2/callback', ...)] *)
Definition callback (env : process_env) (req : request) : prog unit :=
  perform_ (SetTimeout (1000 * 60 * 10)) ;;;
  requestURL <- lift (requestURL req) ;;
  state <- lift (JSON_parse_of (query_get req "state")) ;;
  state_redirectURL <- lift (js_get state "redirectURL") ;;
  redirectURL <- lift (new_URL_of state_redirectURL) ;;
  if hostname redirectURL =? hostname requestURL then
    r <- authorize (query_get req "code") ;;
    match r with
    | inl err => handleError err
    | inr userInfo => local_completion env
    end
  else
    redirectURL <- lift (forward_target redirectURL req) ;;
    console_log [LogString ("Redirecting to desired host: " ++ href redirectURL)] ;;;
    res_redirect (href redirectURL).

(** *** Conditions on the inputs of the callback handler *)

(** The [state] parameter is missing or is not JSON. *)
Definition state_missing_or_malformed (req : request) : Prop :=
  query_get req "state" = VUndefined
  \/ exists e, JSON_parse_of (query_get req "state") = inl e.

(** The parsed state has no [redirectURL] to read, or what it holds there
    does not parse as a URL. *)
Definition redirectURL_absent_or_unparseable (state : jsval) : Prop :=
  match js_get state "redirectURL" with
  | inl _ => True
  | inr VUndefined => True
  | inr v => exists e, new_URL_of v = inl e
  end.

(** The second CLI call gave nothing to read a [result.url] from: it was
    rejected (non-zero exit status), or its output is not JSON, or the parsed
    output is [null], or its [result] member is missing or [null]. *)
Definition open_output_unusable (answer : result exec_output) : Prop :=
  match answer with
  | inl _ => True
  | inr out =>
      match JSON_parse (stdout out) with
      | inl _ => True
      | inr jsonResult =>
          match js_get jsonResult "result" with
          | inl _ => True
          | inr r => exists e, js_get r "url" = inl e
          end
      end
  end.

End App.

(** ** A reference platform

    Executable stand-ins for the platform operations, used to run the
    handlers on concrete requests.  Each one accepts a fragment of what Node
    accepts and gives Node's answer there; outside the fragment it reports an
    error.  The examples stay inside the fragments and rely on a rejection
    only for an input without a scheme or for a text that is not JSON. *)

Module Ref.

Fixpoint all_bytes (p : ascii -> bool) (s : string) : bool :=
  match s with
  | "" => true
  | String c r => p c && all_bytes p r
  end.

Fixpoint map_bytes (f : ascii -> ascii) (s : string) : string :=
  match s with
  | "" => ""
  | String c r => String (f c) (map_bytes f r)
  end.

Definition one_of (set : string) (c : ascii) : bool :=
  existsb (fun d => (c =? d)%char) (list_ascii_of_string set).

Definition lower (c : ascii) : ascii :=
  if is_upper c then ascii_of_N (N_of_ascii c + 32) else c.

Definition is_alpha (c : ascii) : bool := is_upper c || is_lower c.

(** *** JSON.parse: the fragment without fractions, exponents, integers of
    more than 15 digits and [\u] escapes *)

Definition syntax_error : js_error := mk_error "SyntaxError" "Unexpected token in JSON".

Definition is_json_ws (c : ascii) : bool :=
  (c =? " ")%char || (c =? "009")%char || (c =? "010")%char || (c =? "013")%char.

Fixpoint skip_ws (s : string) : string :=
  match s with
  | "" => ""
  | String c r => if is_json_ws c then skip_ws r else s
  end.

Definition json_escape (c : ascii) : option ascii :=
  if (c =? "034")%char then Some "034"%char
  else if (c =? "092")%char then Some "092"%char
  else if (c =? "/")%char then Some "/"%char
  else if (c =? "b")%char then Some "008"%char
  else if (c =? "f")%char then Some "012"%char
  else if (c =? "n")%char then Some "010"%char
  else if (c =? "r")%char then Some "013"%char
  else if (c =? "t")%char then Some "009"%char
  else None.

(** The rest of a string literal after its opening quote. *)
Fixpoint json_string_body (s : string) : option (string * string) :=
  match s with
  | "" => None
  | String c r =>
      if (c =? "034")%char then Some ("", r)
      else if (c =? "092")%char then
        match r with
        | String e r' =>
            match json_escape e, json_string_body r' with
            | Some b, Some (body, rest) => Some (String b body, rest)
            | _, _ => None
            end
        | "" => None
        end
      else if (N_of_ascii c <? 32)%N then None
      else match json_string_body r with
           | Some (body, rest) => Some (String c body, rest)
           | None => None
           end
  end.

Fixpoint take_digits (s : string) : string * string :=
  match s with
  | "" => ("", "")
  | String c r =>
      if is_digit c then let (d, rest) := take_digits r in (String c d, rest)
      else ("", s)
  end.

Definition json_integer (s : string) : option (jsval * string) :=
  let (sign, body) :=
    match s with
    | String "-" r => ("-", r)
    | _ => ("", s)
    end in
  let (digits, rest) := take_digits body in
  let well_formed :=
    match digits with
    | "" => false
    | String "0" (String _ _) => false
    | _ => (String.length digits <=? 15)%nat
    end in
  let ends :=
    match rest with
    | String c _ => negb (one_of ".eE" c)
    | "" => true
    end in
  if well_formed && ends
  then Some (VNumber (if digits =? "0" then "0" else sign ++ digits), rest)
  else None.

Definition json_literal (word : string) (v : jsval) (s : string) : option (jsval * string) :=
  if String.prefix word s
  then Some (v, String.substring (String.length word) (String.length s - String.length word) s)
  else None.

Fixpoint json_value (fuel : nat) (s : string) : option (jsval * string) :=
  match fuel with
  | O => None
  | S fuel =>
      match skip_ws s with
      | "" => None
      | String c r =>
          if (c =? "034")%char then
            match json_string_body r with
            | Some (body, rest) => Some (VString body, rest)
            | None => None
            end
          else if (c =? "[")%char then
            match skip_ws r with
            | String "]" rest => Some (VArray [], rest)
            | _ =>
                match json_elements fuel r with
                | Some (l, rest) => Some (VArray l, rest)
                | None => None
                end
            end
          else if (c =? "{")%char then
            match skip_ws r with
            | String "}" rest => Some (VObject [], rest)
            | _ =>
                match json_members fuel r with
                | Some (l, rest) => Some (VObject l, rest)
                | None => None
                end
            end
          else if (c =? "n")%char then json_literal "null" VNull (String c r)
          else if (c =? "t")%char then json_literal "true" (VBool true) (String c r)
          else if (c =? "f")%char then json_literal "false" (VBool false) (String c r)
          else json_integer (String c r)
      end
  end
with json_elements (fuel : nat) (s : string) : option (list jsval * string) :=
  match fuel with
  | O => None
  | S fuel =>
      match json_value fuel s with
      | Some (v, rest) =>
          match skip_ws rest with
          | String "," rest' =>
              match json_elements fuel rest' with
              | Some (l, rest'') => Some (v :: l, rest'')
              | None => None
              end
          | String "]" rest' => Some ([v], rest')
          | _ => None
          end
      | None => None
      end
  end
with json_members (fuel : nat) (s : string) : option (list (string * jsval) * string) :=
  match fuel with
  | O => None
  | S fuel =>
      match skip_ws s with
      | String "034" r =>
          match json_string_body r with
          | Some (key, rest) =>
              match skip_ws rest with
              | String ":" rest' =>
                  match json_value fuel rest' with
                  | Some (v, rest'') =>
                      match skip_ws rest'' with
                      | String "," more =>
                          match json_members fuel more with
                          | Some (l, rest3) => Some ((key, v) :: l, rest3)
                          | None => None
                          end
                      | String "}" rest3 => Some ([(key, v)], rest3)
                      | _ => None
                      end
                  | None => None
                  end
              | _ => None
              end
          | None => None
          end
      | _ => None
      end
  end.

Definition JSON_parse (s : string) : result jsval :=
  match json_value (2 * String.length s + 2) s with
  | Some (v, rest) => if skip_ws rest =? "" then inr v else inl syntax_error
  | None => inl syntax_error
  end.

(** *** new URL: the fragment [scheme://host[:port][/path][?query][#fragment]]
    for the schemes http, https, ws, wss and ftp, with a host of letters,
    digits, hyphens and dots whose last label starts with a letter and that
    holds no [xn--] label, and [scheme:opaque-path] for the other schemes
    but [file] *)

Definition invalid_url : js_error := mk_error "TypeError" "Invalid URL".

Definition special_schemes : list (string * N) :=
  [("http", 80%N); ("https", 443%N); ("ws", 80%N); ("wss", 443%N); ("ftp", 21%N)].

Definition default_port (scheme : string) : option N :=
  match find (fun x => fst x =? scheme) special_schemes with
  | Some (_, p) => Some p
  | None => None
  end.

Fixpoint digits_value (s : string) (acc : N) : N :=
  match s with
  | "" => acc
  | String c r => digits_value r (10 * acc + (N_of_ascii c - 48))%N
  end.

Fixpoint contains (needle s : string) : bool :=
  String.prefix needle s
  || match s with
     | "" => false
     | String _ r => contains needle r
     end.

Definition valid_scheme (s : string) : bool :=
  match s with
  | "" => false
  | String c _ => is_alpha c && all_bytes (fun c => is_alnum c || one_of "+-." c) s
  end.

Definition valid_host (h : string) : bool :=
  negb (h =? "")
  && all_bytes (fun c => is_alnum c || one_of "-." c) h
  && negb (contains "xn--" h)
  && match List.last (split_on "." h) "" with
     | String c _ => is_alpha c
     | "" => false
     end.

Definition url_code_safe (c : ascii) : bool :=
  is_alnum c || one_of "-._~!$&()*+,;=:@/?%" c.

Definition valid_segments (segs : list string) : bool :=
  forallb (fun seg => all_bytes (fun c => is_alnum c || one_of "-._~" c) seg
                      && negb (seg =? ".") && negb (seg =? "..")) segs.

Definition parse_port (scheme : string) (p : option string) : option (option N) :=
  match p with
  | None | Some "" => Some None
  | Some digits =>
      if all_bytes is_digit digits && (String.length digits <=? 5)%nat
         && (digits_value digits 0 <=? 65535)%N
      then Some (if decide (default_port scheme = Some (digits_value digits 0))
                 then None else Some (digits_value digits 0))
      else None
  end.

Definition new_URL (input : string) : result URL :=
  match break_at ":" input with
  | (_, None) => inl invalid_url
  | (sch, Some rest) =>
      let scheme := map_bytes lower sch in
      let (before_hash, fragment) := break_at "#" rest in
      let (hier, query) := break_at "?" before_hash in
      let safe o := match o with
                    | Some x => all_bytes url_code_safe x
                    | None => true
                    end in
      if negb (valid_scheme sch && negb (scheme =? "file") && safe query && safe fragment)
      then inl invalid_url
      else
        match default_port scheme, hier with
        | Some _, String "/" (String "/" after) =>
            let (authority, path) := break_at "/" after in
            let (h, p) := break_at ":" authority in
            let segs := match path with
                        | Some x => split_on "/" x
                        | None => [""]
                        end in
            match parse_port scheme p with
            | Some port =>
                if valid_host h && valid_segments segs
                then inr (mk_URL scheme "" "" (Some (map_bytes lower h)) port
                            (ListPath segs) query fragment)
                else inl invalid_url
            | None => inl invalid_url
            end
        | None, String c _ =>
            if negb (c =? "/")%char
               && all_bytes (fun c => is_alnum c || one_of "-._~@+" c) hier
            then inr (mk_URL scheme "" "" None None (OpaquePath hier) query fragment)
            else inl invalid_url
        | _, _ => inl invalid_url
        end
  end.

(** *** querystring.stringify and the legacy url.format, for the protocols
    http and https *)

Definition querystring_unreserved (c : ascii) : bool :=
  is_alnum c || one_of "-_.!~*'()" c.

Fixpoint querystring_escape (s : string) : string :=
  match s with
  | "" => ""
  | String c r =>
      (if querystring_unreserved c then String c "" else percent_encode_byte c)
      ++ querystring_escape r
  end.

Definition stringifyPrimitive (v : jsval) : string :=
  match v with
  | VString s => s
  | VNumber r => r
  | VBool true => "true"
  | VBool false => "false"
  | _ => ""
  end.

Definition querystring_stringify (obj : list (string * jsval)) : string :=
  join_with "&"
    (flat_map
       (fun kv : string * jsval =>
          let ks := querystring_escape (fst kv) ++ "=" in
          match snd kv with
          | VArray l => map (fun x => ks ++ querystring_escape (stringifyPrimitive x)) l
          | v => [ks ++ querystring_escape (stringifyPrimitive v)]
          end) obj).

Fixpoint escape_path_marks (s : string) : string :=
  match s with
  | "" => ""
  | String c r =>
      (if (c =? "#")%char then "%23" else if (c =? "?")%char then "%3F" else String c "")
      ++ escape_path_marks r
  end.

Definition url_format (o : url_object) : string :=
  let protocol := uo_protocol o ++ ":" in
  let host := match uo_hostname o with
              | Some h => if contains ":" h then "[" ++ h ++ "]" else h
              | None => ""
              end in
  let query := querystring_stringify (uo_query o) in
  let search := if query =? "" then "" else "?" ++ query in
  let pathname := escape_path_marks (uo_pathname o) in
  if host =? "" then protocol ++ pathname ++ search
  else protocol ++ "//" ++ host
       ++ (match pathname with
           | "" => ""
           | String "/" _ => pathname
           | _ => "/" ++ pathname
           end)
       ++ search.

(** *** jsforce: OAuth2.getAuthorizationUrl *)

Definition getAuthorizationUrl (o : OAuth2) (params : list (string * string)) : string :=
  let login := if truthy (loginUrl o) then str_or_undefined (loginUrl o)
               else "https://login.salesforce.com" in
  let authzServiceUrl := login ++ "/services/oauth2/authorize" in
  let opt x := match x with Some s => VString s | None => VUndefined end in
  authzServiceUrl
  ++ (if contains "?" authzServiceUrl then "&" else "?")
  ++ querystring_stringify
       ([("response_type", VString "code");
         ("client_id", opt (clientId o));
         ("redirect_uri", opt (redirectUri o))]
        ++ map (fun kv => (fst kv, VString (snd kv))) params).

End Ref.

Definition reference_platform : Platform :=
  Build_Platform Ref.JSON_parse Ref.new_URL Ref.url_format Ref.getAuthorizationUrl.

(** ** Scripted environments

    An environment that answers every call of a kind in the same way. *)

Record script : Type := mk_script {
  on_authorize : result userinfo;
  on_readFile : string -> result string;
  on_open : result N;
  on_writeFile : result unit;
  on_exec : string -> result exec_output
}.

Definition scripted (w : script) : oracle :=
  fun _ e =>
    match e return resp e with
    | SetTimeout _ | ConsoleLog _ | ConsoleError _ | Respond _ => tt
    | Authorize _ => on_authorize w
    | ReadFile path _ => on_readFile w path
    | Open _ _ => on_open w
    | WriteFile _ _ => on_writeFile w
    | Sync _ => inr tt
    | Exec command => on_exec w command
    end.

(** ** Sample deployments, requests and environments

    The instance answers on [app.example.com].  [env_pipeline] carries its
    credential in the environment; [env_review] is a review app, which finds
    it in its per-instance file. *)

Definition env_pipeline : process_env :=
  mk_env None (Some "client-id") (Some "client-secret")
    (Some "https://app.example.com/oauth2/callback") (Some "app")
    (Some "force://PlatformCLI::token@org.my.salesforce.com").

Definition env_review : process_env :=
  mk_env None (Some "client-id") (Some "client-secret")
    (Some "https://app.example.com/oauth2/callback") (Some "app-pr-7") None.

(** The [state] text [{"redirectURL":"<url>"}]. *)
Definition state_for (url : string) : string :=
  "{" ++ dquote ++ "redirectURL" ++ dquote ++ ":" ++ dquote ++ url ++ dquote ++ "}".

Definition callback_request (query : list (string * jsval)) : request :=
  mk_request "https" (Some "app.example.com") "/oauth2/callback" query.

Definition req_local : request :=
  callback_request [("code", VString "ABC");
                    ("state", VString (state_for "https://app.example.com"))].

Definition req_forward : request :=
  callback_request [("code", VString "ABC");
                    ("state", VString (state_for "https://other.example.com"))].

Definition req_mailto : request :=
  callback_request [("code", VString "ABC");
                    ("state", VString (state_for "mailto:user@example.com"))].

Definition req_no_state : request := callback_request [("code", VString "ABC")].

Definition req_empty_state : request :=
  callback_request [("code", VString "ABC"); ("state", VString "{}")].

Definition req_home : request := mk_request "https" (Some "app.example.com") "/" [].

(** The text [{"result":<members>}] on the standard output of the CLI. *)
Definition cli_output (members : string) : exec_output :=
  mk_exec_output ("{" ++ dquote ++ "result" ++ dquote ++ ":" ++ members ++ "}") "".

Definition login_url_output : exec_output :=
  cli_output ("{" ++ dquote ++ "url" ++ dquote ++ ":" ++ dquote
              ++ "https://org.my.salesforce.com/secret" ++ dquote ++ "}").

Definition enoent : js_error := mk_error "Error" "ENOENT: no such file or directory".

(** Everything succeeds. *)
Definition all_well : script :=
  mk_script (inr (mk_userinfo "005xx" "00Dxx" "https://login.salesforce.com/id/00Dxx/005xx"))
    (fun path => if path =? "vendor/sfdx/ra-app-pr-7" then inr "force://review@scratch"
                 else inl enoent)
    (inr 21%N) (inr tt) (fun _ => inr login_url_output).

(** The second CLI call exits with status 0 and a result without a [url]. *)
Definition open_without_url : script :=
  mk_script (on_authorize all_well) (on_readFile all_well) (on_open all_well)
    (on_writeFile all_well)
    (fun command => if command =? "sfdx force:org:open --targetusername sfdxorg --urlonly --json"
                    then inr (cli_output "{}") else inr login_url_output).

(** The first CLI call exits with a non-zero status. *)
Definition store_fails : script :=
  mk_script (on_authorize all_well) (on_readFile all_well) (on_open all_well)
    (on_writeFile all_well)
    (fun _ => inl (mk_error "Error" "Command failed: sfdx force:auth:sfdxurl:store")).

(** The second CLI call exits with a non-zero status. *)
Definition open_fails : script :=
  mk_script (on_authorize all_well) (on_readFile all_well) (on_open all_well)
    (on_writeFile all_well)
    (fun command => if command =? "sfdx force:org:open --targetusername sfdxorg --urlonly --json"
                    then inl (mk_error "Error" "Command failed: sfdx force:org:open")
                    else inr login_url_output).


(** ** Further readings of a trace, and further samples *)

(** The answers of the code exchanges of a trace. *)
Definition authorize_answers (tr : list event) : list (jsval * result userinfo) :=
  flat_map
    (fun ev : event =>
       match ev with
       | existT e x =>
           match e return resp e -> list (jsval * result userinfo) with
           | Authorize c => fun x => [(c, x)]
           | _ => fun _ => []
           end x
       end) tr.

(** The answers of the [open] calls of a trace. *)
Definition open_answers (tr : list event) : list (string * result N) :=
  flat_map
    (fun ev : event =>
       match ev with
       | existT e x =>
           match e return resp e -> list (string * result N) with
           | Open p _ => fun x => [(p, x)]
           | _ => fun _ => []
           end x
       end) tr.

(** The files a trace opens, each with its flags. *)
Definition opened (tr : list event) : list (string * string) :=
  flat_map (fun ev : event => match projT1 ev with Open p f => [(p, f)] | _ => [] end) tr.

(** What a trace prints with [console.log], one entry per call. *)
Definition logged (tr : list event) : list (list log_arg) :=
  flat_map (fun ev : event => match projT1 ev with ConsoleLog a => [a] | _ => [] end) tr.

(** The errors of the failed calls of a trace, in order. *)
Definition failures (tr : list event) : list js_error :=
  flat_map (fun ev : event => match event_error ev with Some e => [e] | None => [] end) tr.

(** Calls that read or change the file system or start a process. *)
Definition touches_system (e : effect) : bool :=
  match e with
  | ReadFile _ _ | Open _ _ | WriteFile _ _ | Sync _ | Exec _ => true
  | _ => false
  end.

(** A review app whose per-instance file is empty. *)
Definition empty_review_file : script :=
  mk_script (on_authorize all_well) (fun _ => inr "") (on_open all_well)
    (on_writeFile all_well) (on_exec all_well).

(** The forwarded request of [req_forward], as it reaches
    [other.example.com]. *)
Definition req_at_other : request :=
  mk_request "https" (Some "other.example.com") "/oauth2/callback"
    [("state", VString (state_for "https://other.example.com"));
     ("code", VString "ABC")].

(** Callbacks without a [code] parameter. *)
Definition req_forward_no_code : request :=
  callback_request [("state", VString (state_for "https://other.example.com"))].

Definition req_local_no_code : request :=
  callback_request [("state", VString (state_for "https://app.example.com"))].

(** A forwarded callback whose [code] is an object with a member named
    [toString], as the extended query parser of Express gives for
    [?code[toString]=x], and one whose [code]
    came twice, as in [?code=a&code=b]. *)
Definition req_code_object : request :=
  callback_request [("code", VObject [("toString", VString "x")]);
                    ("state", VString (state_for "https://other.example.com"))].

Definition req_code_twice : request :=
  callback_request [("code", VArray [VString "a"; VString "b"]);
                    ("state", VString (state_for "https://other.example.com"))].

(** The second CLI call prints a [result] whose [url] is an object with a
    member named [toString]. *)
Definition object_url_output : exec_output :=
  cli_output ("{" ++ dquote ++ "url" ++ dquote ++ ":{"
              ++ dquote ++ "toString" ++ dquote ++ ":1}}").

Definition open_with_object_url : script :=
  mk_script (on_authorize all_well) (on_readFile all_well) (on_open all_well)
    (on_writeFile all_well)
    (fun command => if command =? "sfdx force:org:open --targetusername sfdxorg --urlonly --json"
                    then inr object_url_output
                    else inr login_url_output).


(** A deployment whose login URL has no scheme. *)
Definition env_bad_login : process_env :=
  mk_env (Some "login.salesforce.com") (Some "client-id") (Some "client-secret")
    (Some "https://app.example.com/oauth2/callback") (Some "app") None.

(** * Properties *)

(** ** Bytes and their percent-encoding *)

Ltac each_byte c := destruct c as [[] [] [] [] [] [] [] []].

Lemma percent_decode_plain (c : ascii) (r : string) :
  c <> "%"%char -> percent_decode (String c r) = String c (percent_decode r).
Proof.
  intros Hc. apply Ascii.eqb_neq in Hc.
  destruct r as [|h [|l r']]; simpl; rewrite ?Hc; reflexivity.
Qed.

(** One encoded byte decodes to the byte, whatever follows. *)
Lemma percent_decode_byte (c : ascii) (t : string) :
  percent_decode
    (plus_to_space
       ((if (c =? " ")%char then "+"
         else if urlencoded_safe c then String c ""
         else percent_encode_byte c) ++ t))
  = String c (percent_decode (plus_to_space t)).
Proof.
  each_byte c; cbn;
    solve [ reflexivity | apply percent_decode_plain; discriminate ].
Qed.

Lemma percent_decode_encode (s : string) :
  percent_decode (plus_to_space (urlencoded_encode s)) = s.
Proof.
  induction s as [|c r IH]; [reflexivity|].
  cbn [urlencoded_encode]. rewrite percent_decode_byte. now rewrite IH.
Qed.

(** Decoding what the serializer wrote gives the bytes back, decoded as
    UTF-8. *)
Lemma urlencoded_decode_encode (s : string) :
  urlencoded_decode (urlencoded_encode s) = utf8_decode s.
Proof. unfold urlencoded_decode. now rewrite percent_decode_encode. Qed.

Lemma mentions_app (c : ascii) (a b : string) :
  mentions c (a ++ b) = mentions c a || mentions c b.
Proof.
  induction a as [|d a IH]; [reflexivity|].
  simpl. rewrite IH. now rewrite orb_assoc.
Qed.

Lemma encoded_byte_no_separator (c : ascii) :
  let e := if (c =? " ")%char then "+"
           else if urlencoded_safe c then String c ""
           else percent_encode_byte c in
  mentions "&" e = false /\ mentions "=" e = false.
Proof. each_byte c; vm_compute; split; reflexivity. Qed.

Lemma urlencoded_encode_no_separator (s : string) :
  mentions "&" (urlencoded_encode s) = false
  /\ mentions "=" (urlencoded_encode s) = false.
Proof.
  induction s as [|c r [IH1 IH2]]; [split; reflexivity|].
  cbn [urlencoded_encode]. rewrite !mentions_app, IH1, IH2.
  destruct (encoded_byte_no_separator c) as [H1 H2]. cbv zeta in H1, H2.
  now rewrite H1, H2.
Qed.

(** ** UTF-8: the decoder leaves well-formed text alone *)

Lemma byte_in_apart (b : ascii) (lo hi lo' hi' : N) :
  byte_in b lo hi = true -> (hi' < lo \/ hi < lo')%N -> byte_in b lo' hi' = false.
Proof.
  unfold byte_in. intros H Hsep.
  apply andb_true_iff in H as [H1 H2].
  apply N.leb_le in H1, H2. apply andb_false_iff.
  destruct Hsep; [right|left]; apply N.leb_gt; lia.
Qed.

Lemma utf8_decode_from_start (b : ascii) (r : string) :
  utf8_decode_from "" 0 128 191 (String b r)
  = if byte_in b 0 127 then String b (utf8_decode_from "" 0 128 191 r)
    else match utf8_lead b with
         | Some (n, lo, hi) => utf8_decode_from (String b "") n lo hi r
         | None => replacement ++ utf8_decode_from "" 0 128 191 r
         end.
Proof.
  cbn [utf8_decode_from]. destruct (byte_in b 0 127); [reflexivity|].
  destruct (utf8_lead b) as [[[n lo] hi]|]; reflexivity.
Qed.

Lemma utf8_decode_from_last (pending : string) (lo hi : N) (b : ascii) (r : string) :
  byte_in b lo hi = true ->
  utf8_decode_from pending 1 lo hi (String b r)
  = pending ++ String b (utf8_decode_from "" 0 128 191 r).
Proof. intros H. cbn [utf8_decode_from]. now rewrite H. Qed.

Lemma utf8_decode_from_next (pending : string) (n : nat) (lo hi : N) (b : ascii)
    (r : string) :
  byte_in b lo hi = true ->
  utf8_decode_from pending (S (S n)) lo hi (String b r)
  = utf8_decode_from (pending ++ String b "") (S n) 128 191 r.
Proof. intros H. cbn [utf8_decode_from]. now rewrite H. Qed.

Lemma utf8_decode_well_formed (s : string) :
  well_formed_utf8 s -> utf8_decode s = s.
Proof.
  unfold utf8_decode.
  induction 1 as [|b r Hb _ IH|b1 b2 r H1 H2 _ IH|b1 b2 b3 r H1 H2 H3 _ IH
                  |b1 b2 b3 b4 r H1 H2 H3 H4 _ IH];
    [reflexivity|..]; rewrite utf8_decode_from_start.
  - now rewrite Hb, IH.
  - rewrite (byte_in_apart _ _ _ 0 127 H1) by (left; lia).
    unfold utf8_lead. rewrite H1.
    rewrite (utf8_decode_from_last _ _ _ _ _ H2). cbn. now rewrite IH.
  - rewrite (byte_in_apart _ _ _ 0 127 H1) by (left; lia).
    unfold utf8_lead. rewrite (byte_in_apart _ _ _ 194 223 H1) by (left; lia).
    rewrite H1, (utf8_decode_from_next _ _ _ _ _ _ H2),
      (utf8_decode_from_last _ _ _ _ _ H3).
    cbn. now rewrite IH.
  - rewrite (byte_in_apart _ _ _ 0 127 H1) by (left; lia).
    unfold utf8_lead. rewrite (byte_in_apart _ _ _ 194 223 H1) by (left; lia).
    rewrite (byte_in_apart _ _ _ 224 239 H1) by (left; lia).
    rewrite H1, (utf8_decode_from_next _ _ _ _ _ _ H2),
      (utf8_decode_from_next _ _ _ _ _ _ H3), (utf8_decode_from_last _ _ _ _ _ H4).
    cbn. now rewrite IH.
Qed.

(** ASCII text is well-formed. *)
Lemma ascii_well_formed (s : string) :
  Ref.all_bytes (fun b => byte_in b 0 127) s = true -> well_formed_utf8 s.
Proof.
  induction s as [|b r IH]; cbn; intros H; [constructor|].
  apply andb_true_iff in H as [Hb Hr]. apply wf_one; auto.
Qed.

(** ** Splitting, and the round trip of the query format *)

Lemma break_at_app (sep : ascii) (a b : string) :
  mentions sep a = false ->
  break_at sep (a ++ String sep b) = (a, Some b).
Proof.
  induction a as [|c a IH]; simpl; intros H.
  - now rewrite Ascii.eqb_refl.
  - apply orb_false_iff in H as [Hc Ha]. rewrite Hc, (IH Ha). reflexivity.
Qed.

Lemma split_on_clean (sep : ascii) (a : string) :
  mentions sep a = false -> split_on sep a = [a].
Proof.
  induction a as [|c a IH]; simpl; intros H; [reflexivity|].
  apply orb_false_iff in H as [Hc Ha]. now rewrite Hc, (IH Ha).
Qed.

Lemma split_on_app (sep : ascii) (a b : string) :
  mentions sep a = false ->
  split_on sep (a ++ String sep b) = a :: split_on sep b.
Proof.
  induction a as [|c a IH]; simpl; intros H.
  - now rewrite Ascii.eqb_refl.
  - apply orb_false_iff in H as [Hc Ha]. now rewrite Hc, (IH Ha).
Qed.

(** A serialized tuple is not empty, holds no [&], and parses to its name and
    value decoded as UTF-8. *)
Lemma tuple_shape (n v : string) :
  let t := urlencoded_encode n ++ "=" ++ urlencoded_encode v in
  mentions "&" t = false /\ (t =? "") = false
  /\ urlencoded_parse_tuple t = (utf8_decode n, utf8_decode v).
Proof.
  cbv zeta.
  destruct (urlencoded_encode_no_separator n) as [Hn1 Hn2].
  destruct (urlencoded_encode_no_separator v) as [Hv1 Hv2].
  split; [|split].
  - rewrite !mentions_app, Hn1, Hv1. reflexivity.
  - destruct (urlencoded_encode n); reflexivity.
  - unfold urlencoded_parse_tuple.
    change ("=" ++ urlencoded_encode v) with (String "=" (urlencoded_encode v)).
    rewrite (break_at_app "=" _ _ Hn2).
    now rewrite !urlencoded_decode_encode.
Qed.

(** Parsing what the serializer wrote gives every name and value back,
    decoded as UTF-8. *)
Lemma urlencoded_parse_serialize (l : list (string * string)) :
  urlencoded_parse (urlencoded_serialize l)
  = map (fun nv => (utf8_decode (fst nv), utf8_decode (snd nv))) l.
Proof.
  induction l as [|[n v] rest IH]; [reflexivity|].
  destruct (tuple_shape n v) as (Hamp & Hne & Htuple). cbv zeta in *.
  cbn [urlencoded_serialize]. destruct rest as [|x rest].
  - unfold urlencoded_parse. rewrite (split_on_clean "&" _ Hamp).
    cbn [List.filter]. rewrite Hne. cbn. now rewrite Htuple.
  - set (tail := urlencoded_serialize (x :: rest)) in *.
    unfold urlencoded_parse in *.
    replace ((urlencoded_encode n ++ "=" ++ urlencoded_encode v) ++ "&" ++ tail)
      with ((urlencoded_encode n ++ "=" ++ urlencoded_encode v) ++ String "&" tail)
      by reflexivity.
    rewrite (split_on_app "&" _ _ Hamp).
    cbn [List.filter]. rewrite Hne. cbn [negb map]. rewrite Htuple. now rewrite IH.
Qed.

(** On well-formed names and values the round trip is exact, byte for
    byte. *)
Lemma urlencoded_parse_serialize_well_formed (l : list (string * string)) :
  Forall (fun nv => well_formed_utf8 (fst nv) /\ well_formed_utf8 (snd nv)) l ->
  urlencoded_parse (urlencoded_serialize l) = l.
Proof.
  intros H. rewrite urlencoded_parse_serialize.
  induction H as [|[n v] rest [Hn Hv] _ IH]; [reflexivity|].
  cbn [map fst snd] in *. rewrite IH.
  now rewrite (utf8_decode_well_formed _ Hn), (utf8_decode_well_formed _ Hv).
Qed.

Lemma urlencoded_serialize_nonempty (l : list (string * string)) (n v : string) :
  (urlencoded_serialize (l ++ [(n, v)]) =? "") = false.
Proof.
  assert (H : forall l', l' <> [] -> (urlencoded_serialize l' =? "") = false).
  { intros [|[a b] r] Hl; [congruence|].
    cbn [urlencoded_serialize].
    destruct (tuple_shape a b) as (_ & Hne & _). cbv zeta in Hne.
    destruct r.
    - exact Hne.
    - destruct (urlencoded_encode a ++ "=" ++ urlencoded_encode b); [discriminate|reflexivity]. }
  apply H. destruct l; discriminate.
Qed.

(** ** The URL operations *)

(** Appending a parameter keeps every earlier parameter and adds the new one
    last, unchanged; the query becomes the serialization of the list. *)
Lemma searchParams_after_append (u : URL_object) (n v : string) :
  searchParams (searchParams_append u n v) = (searchParams u ++ [(n, v)])%list
  /\ url_query (searchParams_append u n v)
     = Some (urlencoded_serialize (searchParams u ++ [(n, v)])).
Proof.
  unfold searchParams_append. cbn [searchParams url_query url_of].
  now rewrite urlencoded_serialize_nonempty.
Qed.

Lemma pathname_after_set (u : URL_object) (segs : list string) :
  url_path_of u = ListPath segs ->
  pathname (set_pathname u "/oauth2/callback") = "/oauth2/callback".
Proof. intros H. unfold set_pathname. rewrite H. reflexivity. Qed.

Lemma set_pathname_opaque (u : URL_object) (s : string) (value : string) :
  url_path_of u = OpaquePath s -> set_pathname u value = u.
Proof. intros H. unfold set_pathname. now rewrite H. Qed.

Lemma set_pathname_keeps_searchParams (u : URL_object) (value : string) :
  searchParams (set_pathname u value) = searchParams u.
Proof. unfold set_pathname. destruct (url_path_of u); reflexivity. Qed.

(** ** Runs of the handlers *)

(** Case analysis on every answer and test that a run depends on. *)
Ltac answer :=
  match goal with
  | |- context [match ?x with inl _ => _ | inr _ => _ end] =>
      let E := fresh "E" in destruct x eqn:E
  | |- context [if ?b then _ else _] =>
      let E := fresh "E" in destruct b eqn:E
  end.

Ltac all_runs :=
  repeat (cbn -[String.eqb href forward_target ToString JSON_parse_of new_URL_of
                 query_get hostname store_command open_command sfdxAuthUrlFilePath
                 review_app_file];
          try answer).

Ltac unfold_handlers :=
  unfold trace, result_of, run, callback, home, requestURL, local_completion,
    handleError, promise_catch, authorize, readFile, open, writeFile, exec,
    console_log, console_error, res_redirect, res_status_send, lift, perform,
    perform_ in *.

Lemma store_is_not_open : (open_command =? store_command) = false.
Proof. reflexivity. Qed.



Section Properties.

Context {P : Platform}.

(** When [JSON.parse] accepts a value, the value converts to a string. *)
Lemma JSON_parse_of_string (v st : jsval) :
  JSON_parse_of v = inr st -> exists s, ToString v = inr s /\ JSON_parse s = inr st.
Proof.
  unfold JSON_parse_of. destruct (ToString v) as [e|s]; [discriminate|].
  intros H. exists s. split; [reflexivity|exact H].
Qed.

(** The callback handler, case by case. *)
Lemma callback_run (env : process_env) (req : request) (o : oracle) :
  run o (callback env req) =
  let ev0 : event := existT (SetTimeout (1000 * 60 * 10)) (o [] (SetTimeout (1000 * 60 * 10))) in
  match requestURL req with
  | inl e => ([ev0], Uncaught e)
  | inr ru =>
  match JSON_parse_of (query_get req "state") with
  | inl e => ([ev0], Uncaught e)
  | inr st =>
  match js_get st "redirectURL" with
  | inl e => ([ev0], Uncaught e)
  | inr rv =>
  match new_URL_of rv with
  | inl e => ([ev0], Uncaught e)
  | inr u =>
      if hostname u =? hostname ru then
        let a := o [ev0] (Authorize (query_get req "code")) in
        let ev1 : event := existT (Authorize (query_get req "code")) a in
        let r := run_from o [ev0; ev1]
                   (match a with
                    | inl err => handleError err
                    | inr _ => local_completion env
                    end) in
        (ev0 :: ev1 :: fst r, snd r)
      else
        match forward_target u req with
        | inl e => ([ev0], Uncaught e)
        | inr t =>
            let l := ConsoleLog [LogString ("Redirecting to desired host: " ++ href t)] in
            let ev1 : event := existT l (o [ev0] l) in
            let ev2 : event := existT (Respond (Redirect 302 (href t)))
                                 (o [ev0; ev1] (Respond (Redirect 302 (href t)))) in
            ([ev0; ev1; ev2], Returned tt)
        end
  end end end end.
Proof.
  unfold run, callback. cbn.
  destruct (requestURL req) as [e|ru]; [reflexivity|]. cbn.
  destruct (JSON_parse_of _) as [e|st]; [reflexivity|]. cbn.
  destruct (js_get st _) as [e|rv]; [reflexivity|]. cbn.
  destruct (new_URL_of _) as [e|u]; [reflexivity|]. cbn.
  destruct (hostname u =? hostname ru); cbn.
  - destruct (o _ (Authorize _)); reflexivity.
  - destruct (forward_target u req); reflexivity.
Qed.


(** C2, amended.  When a callback is forwarded, its [code] parameter is a
    single string and the [redirectURL] of its state has a path made of
    segments (as every origin URL has), the one response is a redirect to the
    serialization of a URL that is [redirectURL] with the path
    [/oauth2/callback] and with [state] and [code] appended as the last two
    query parameters, after the parameters [redirectURL] already had.  The
    value of [state] is the string that was parsed, the value of [code] the
    string that came; both are written into the query byte for byte, and a
    receiver that parses the query reads them back unchanged when they are
    well-formed UTF-8.  Scheme, credentials, host, port and fragment are
    those of [redirectURL]. *)
Theorem forward_target_preserves (env : process_env) (req : request) (o : oracle)
    (ru u : URL) (st rv : jsval) (segs : list string) (c : string) :
  requestURL req = inr ru ->
  JSON_parse_of (query_get req "state") = inr st ->
  js_get st "redirectURL" = inr rv ->
  new_URL_of rv = inr u ->
  hostname u <> hostname ru ->
  url_path_of u = ListPath segs ->
  query_get req "code" = VString c ->
  exists (t : URL_object) (s : string),
    let carried := [("state", s); ("code", c)] in
    let params := (searchParams (URL_object_of u) ++ carried)%list in
    forward_target u req = inr t
    /\ ToString (query_get req "state") = inr s
    /\ (forall s', query_get req "state" = VString s' -> s = s')
    /\ responses (trace o (callback env req)) = [Redirect 302 (href t)]
    /\ pathname t = "/oauth2/callback"
    /\ searchParams t = params
    /\ url_query t = Some (urlencoded_serialize params)
    /\ urlencoded_parse (urlencoded_serialize params)
       = (map (fun nv => (utf8_decode (fst nv), utf8_decode (snd nv)))
            (searchParams (URL_object_of u))
          ++ [("state", utf8_decode s); ("code", utf8_decode c)])%list
    /\ (well_formed_utf8 s -> utf8_decode s = s)
    /\ (well_formed_utf8 c -> utf8_decode c = c)
    /\ (url_scheme t, url_username t, url_password t, url_host t, url_port t,
        url_fragment t)
       = (url_scheme u, url_username u, url_password u, url_host u, url_port u,
          url_fragment u).
Proof.
  intros Hru Hst Hrv Hu Hne Hpath Hc.
  destruct (JSON_parse_of_string _ _ Hst) as (s & Hs & _).
  eexists. exists s. cbv zeta.
  assert (Htarget : forward_target u req
                    = inr (searchParams_append
                             (searchParams_append
                                (set_pathname (URL_object_of u) "/oauth2/callback")
                                "state" s) "code" c)).
  { unfold forward_target. rewrite Hs, Hc. reflexivity. }
  split; [exact Htarget|].
  split; [exact Hs|].
  split; [intros s' Hs'; rewrite Hs' in Hs; cbn in Hs; congruence|].
  split.
  { unfold trace. rewrite callback_run. cbv zeta. rewrite Hru, Hst, Hrv, Hu.
    apply String.eqb_neq in Hne. rewrite Hne, Htarget. reflexivity. }
  assert (Hparams : searchParams
                      (searchParams_append
                         (searchParams_append
                            (set_pathname (URL_object_of u) "/oauth2/callback")
                            "state" s) "code" c)
                    = (searchParams (URL_object_of u) ++ [("state", s); ("code", c)])%list).
  { rewrite (proj1 (searchParams_after_append _ _ _)),
      (proj1 (searchParams_after_append _ _ _)), set_pathname_keeps_searchParams,
      <- app_assoc. reflexivity. }
  split; [unfold searchParams_append, set_pathname, URL_object_of;
          cbn [url_of url_path_of]; rewrite Hpath; reflexivity|].
  split; [exact Hparams|].
  split.
  { rewrite (proj2 (searchParams_after_append _ _ _)),
      (proj1 (searchParams_after_append _ _ _)), set_pathname_keeps_searchParams,
      <- app_assoc. reflexivity. }
  split; [rewrite urlencoded_parse_serialize, map_app; reflexivity|].
  split; [apply utf8_decode_well_formed|].
  split; [apply utf8_decode_well_formed|].
  unfold searchParams_append, set_pathname, URL_object_of.
  cbn [url_of url_path_of]. rewrite Hpath. reflexivity.
Qed.

(** C3.  Whenever a call of the local branch fails (the code exchange, the
    read of the per-instance file, the open or the write of the credential
    file, or either CLI call), the handler sends exactly one response, the
    403 with the fixed body; the error itself goes to the log and not into
    the response. *)
Theorem failure_answers_generic_403 (env : process_env) (req : request) (o : oracle)
    (ev : event) (err : js_error) :
  In ev (trace o (callback env req)) ->
  event_error ev = Some err ->
  responses (trace o (callback env req)) = [Send 403 "Unexpected internal error"]
  /\ logged_errors (trace o (callback env req)) = [err].
Proof.
  revert ev err. unfold_handlers. all_runs.
  all: intros ev err Hin Herr; cbn in Hin.
  all: repeat (destruct Hin as [<-|Hin]; [try discriminate Herr|]); try contradiction.
  all: cbn in Herr; inversion Herr; subst; split; reflexivity.
Qed.

(** C4.  The per-instance file, whose path is the fixed prefix
    [vendor/sfdx/ra-] followed by the instance name, is read only when the
    credential string of the environment is absent or empty.  In every local
    completion (the code exchange succeeded): when the environment string is
    present and non-empty, the file is not read, the credential file is
    opened, and once it is open the one thing written is the environment
    string; when the environment string is absent or empty, the per-instance
    file is read, and once that read has returned and the credential file is
    open the one thing written is what the read returned. *)
Theorem credential_source (env : process_env) (req : request) (o : oracle) :
  (forall p, In p (file_reads (trace o (callback env req))) ->
     (SFDX_AUTH_URL env = None \/ SFDX_AUTH_URL env = Some "")
     /\ p = "vendor/sfdx/ra-" ++ str_or_undefined (HEROKU_APP_NAME env))
  /\ forall userInfo,
       In (query_get req "code", inr userInfo)
         (authorize_answers (trace o (callback env req))) ->
       (forall s, SFDX_AUTH_URL env = Some s -> s <> "" ->
          file_reads (trace o (callback env req)) = []
          /\ opened (trace o (callback env req)) = [(sfdxAuthUrlFilePath, "w")]
          /\ (forall fd,
                In (sfdxAuthUrlFilePath, inr fd) (open_answers (trace o (callback env req))) ->
                file_writes (trace o (callback env req)) = [Some s])
          /\ forall d, In d (file_writes (trace o (callback env req))) -> d = Some s)
       /\ (SFDX_AUTH_URL env = None \/ SFDX_AUTH_URL env = Some "" ->
             file_reads (trace o (callback env req)) = [review_app_file env]
             /\ forall data,
                  In (review_app_file env, inr data)
                    (read_answers (trace o (callback env req))) ->
                  opened (trace o (callback env req)) = [(sfdxAuthUrlFilePath, "w")]
                  /\ (forall fd,
                        In (sfdxAuthUrlFilePath, inr fd)
                          (open_answers (trace o (callback env req))) ->
                        file_writes (trace o (callback env req)) = [Some data])
                  /\ forall d, In d (file_writes (trace o (callback env req))) ->
                       d = Some data).
Proof.
  assert (Htruthy : forall s, SFDX_AUTH_URL env = Some s -> s <> "" ->
                      truthy (SFDX_AUTH_URL env) = true).
  { intros s -> Hs. cbn. apply String.eqb_neq in Hs. now rewrite Hs. }
  assert (Hfalsy : truthy (SFDX_AUTH_URL env) = false ->
                   SFDX_AUTH_URL env = None \/ SFDX_AUTH_URL env = Some "").
  { destruct (SFDX_AUTH_URL env) as [s|]; [|now left]. cbn.
    destruct (String.eqb_spec s ""); [subst; now right|discriminate]. }
  assert (Hfalsy' : SFDX_AUTH_URL env = None \/ SFDX_AUTH_URL env = Some "" ->
                    truthy (SFDX_AUTH_URL env) = false).
  { intros [->| ->]; reflexivity. }
  split; [|intros userInfo H; split].
  - intros p. unfold_handlers.
    destruct (truthy (SFDX_AUTH_URL env)) eqn:Ht; all_runs.
    all: intros Hp; cbn in Hp.
    all: repeat (destruct Hp as [<-|Hp]; [|]); try contradiction.
    all: split; [apply Hfalsy; reflexivity|reflexivity].
  - revert H. unfold_handlers. intros Hauth s Hs Hne.
    specialize (Htruthy s Hs Hne). revert Hauth. rewrite Htruthy. all_runs.
    all: intros Hauth; cbn in Hauth.
    all: repeat (destruct Hauth as [Hauth|Hauth]; [try discriminate Hauth|]);
         try contradiction.
    all: split; [reflexivity|]; split; [reflexivity|]; split.
    all: try (intros fd Hfd; cbn in Hfd;
              repeat (destruct Hfd as [Hfd|Hfd]; [try discriminate Hfd|]);
              try contradiction; rewrite Hs; reflexivity).
    all: intros d Hd; cbn in Hd.
    all: repeat (destruct Hd as [<-|Hd]; [try assumption|]); try contradiction.
  - revert H. unfold_handlers. intros Hauth Hno.
    specialize (Hfalsy' Hno). revert Hauth. rewrite Hfalsy'. all_runs.
    all: intros Hauth; cbn in Hauth.
    all: repeat (destruct Hauth as [Hauth|Hauth]; [try discriminate Hauth|]);
         try contradiction.
    all: split; [reflexivity|]; intros data Hdata; cbn in Hdata.
    all: repeat (destruct Hdata as [Hdata|Hdata]; [try discriminate Hdata|]);
         try contradiction.
    all: injection Hdata as <-.
    all: split; [reflexivity|]; split.
    all: try (intros fd Hfd; cbn in Hfd;
              repeat (destruct Hfd as [Hfd|Hfd]; [try discriminate Hfd|]);
              try contradiction; reflexivity).
    all: intros d Hd; cbn in Hd.
    all: repeat (destruct Hd as [<-|Hd]; [try reflexivity|]); try contradiction.
Qed.

(** C5, on the code.  A callback whose [state] is missing or is not JSON makes
    the handler throw: the exception leaves the handler uncaught, right after
    the timeout is set.  [handleError] is not reached, the handler sends no
    response of its own, and when the request URL itself is well formed the
    exception is the very error raised by [JSON.parse]. *)
Theorem malformed_state_is_uncaught (env : process_env) (req : request) (o : oracle) :
  PlatformLaws P ->
  state_missing_or_malformed req ->
  exists e,
    result_of o (callback env req) = Uncaught e
    /\ calls (trace o (callback env req)) = [SetTimeout (1000 * 60 * 10)]
    /\ responses (trace o (callback env req)) = []
    /\ logged_errors (trace o (callback env req)) = []
    /\ (forall ru, requestURL req = inr ru ->
          JSON_parse_of (query_get req "state") = inl e).
Proof.
  intros L Hbad.
  assert (Hparse : exists e, JSON_parse_of (query_get req "state") = inl e).
  { destruct Hbad as [Hmiss|Hbad]; [|exact Hbad].
    rewrite Hmiss. apply (JSON_parse_undefined P L). }
  destruct Hparse as [e He].
  unfold trace, result_of. rewrite callback_run. cbv zeta. rewrite He.
  destruct (requestURL req) as [e'|ru].
  - exists e'. repeat split; try reflexivity. intros ru Hru. discriminate Hru.
  - exists e. repeat split; reflexivity.
Qed.

(** C6, on the code.  When the second CLI call exits with status 0 and prints
    JSON whose [result] is there but has no [url], nothing throws: the handler
    logs no error, sends no 403, and answers with a redirect to the text
    [undefined]. *)
Theorem open_result_without_url_is_redirected (env : process_env) (req : request)
    (o : oracle) (out : exec_output) (jsonResult r : jsval) :
  In (open_command, inr out) (exec_answers (trace o (callback env req))) ->
  JSON_parse (stdout out) = inr jsonResult ->
  js_get jsonResult "result" = inr r ->
  js_get r "url" = inr VUndefined ->
  responses (trace o (callback env req)) = [Redirect 302 "undefined"]
  /\ logged_errors (trace o (callback env req)) = [].
Proof.
  revert out jsonResult r. unfold_handlers. all_runs.
  all: intros out jsonResult r Hin Hj Hr Hu; cbn in Hin.
  all: repeat (destruct Hin as [Hin|Hin];
               [inversion Hin; subst;
                try (exfalso; match goal with
                              | H : store_command = open_command |- _ =>
                                  vm_compute in H; discriminate H
                              end)|]);
       try contradiction.
  all: try congruence.
  all: repeat match goal with
              | H : ?x = inr _, H' : ?x = inr _ |- _ =>
                  rewrite H in H'; injection H' as <-
              end.
  all: try discriminate.
  all: match goal with
       | H : ToString VUndefined = inr _ |- _ => cbn in H; injection H as <-
       end.
  all: split; reflexivity.
Qed.

(** X13.  When the second CLI call is rejected (non-zero exit status), or prints
    something that is not JSON, or prints JSON that is [null] or whose
    [result] member is missing or [null], the handler sends exactly one
    response, the generic 403, and no redirect. *)
Theorem cli_open_failure_answers_403 (env : process_env) (req : request) (o : oracle)
    (answer : result exec_output) :
  In (open_command, answer) (exec_answers (trace o (callback env req))) ->
  open_output_unusable answer ->
  responses (trace o (callback env req)) = [Send 403 "Unexpected internal error"].
Proof.
  revert answer. unfold_handlers. all_runs.
  all: intros answer Hin Hun; cbn in Hin.
  all: repeat (destruct Hin as [Hin|Hin];
               [inversion Hin; subst;
                try (exfalso; match goal with
                              | H : store_command = open_command |- _ =>
                                  vm_compute in H; discriminate H
                              end)|]);
       try contradiction.
  all: try reflexivity.
  all: unfold open_output_unusable in Hun;
       repeat match goal with
              | H : ?x = _, Hun : context [?x] |- _ => rewrite H in Hun
              end.
  all: destruct Hun as [bad Hbad]; congruence.
Qed.


(** C8.  Whenever the authorization URL of the identity provider parses, the
    home page answers every request with one 302 redirect to that URL with
    one more query parameter, added last: [state], whose value is the JSON
    text of an object with the single member [redirectURL], set to this
    instance's public origin [https://<HEROKU_APP_NAME>.herokuapp.com].  The
    rest of the URL is untouched. *)
Theorem home_redirects_with_state (env : process_env) (req : request) (o : oracle)
    (u : URL) :
  new_URL (getAuthorizationUrl (oauth2 env) [("scope", "id")]) = inr u ->
  exists (t : URL_object) (state : string),
    responses (trace o (home env req)) = [Redirect 302 (href t)]
    /\ result_of o (home env req) = Returned tt
    /\ JSON_stringify (VObject [("redirectURL", VString (own_origin env))]) = Some state
    /\ state = "{" ++ JSON_quote "redirectURL" ++ ":" ++ JSON_quote (own_origin env) ++ "}"
    /\ searchParams t = (searchParams (URL_object_of u) ++ [("state", state)])%list
    /\ url_query t
       = Some (urlencoded_serialize (searchParams (URL_object_of u) ++ [("state", state)]))
    /\ (url_scheme t, url_username t, url_password t, url_host t, url_port t,
        url_path_of t, url_fragment t)
       = (url_scheme u, url_username u, url_password u, url_host u, url_port u,
          url_path_of u, url_fragment u).
Proof.
  intros Hu.
  exists (searchParams_append (URL_object_of u) "state"
            ("{" ++ JSON_quote "redirectURL" ++ ":" ++ JSON_quote (own_origin env) ++ "}")).
  eexists.
  unfold trace, result_of, run, home. rewrite Hu.
  repeat split; try reflexivity.
  apply (proj2 (searchParams_after_append _ _ _)).
Qed.

(** C9.  A callback whose [state] parses as JSON but has no [redirectURL]
    (or is [null]), or whose [redirectURL] does not parse as a URL, makes the
    handler throw right after the timeout is set: nothing is routed, no code
    exchange is made, no response is sent, and [handleError] is not reached
    (nothing is logged as an error). *)
Theorem bad_redirectURL_is_uncaught (env : process_env) (req : request) (o : oracle)
    (state : jsval) :
  PlatformLaws P ->
  JSON_parse_of (query_get req "state") = inr state ->
  redirectURL_absent_or_unparseable state ->
  exists e,
    result_of o (callback env req) = Uncaught e
    /\ calls (trace o (callback env req)) = [SetTimeout (1000 * 60 * 10)]
    /\ authorizations (trace o (callback env req)) = []
    /\ responses (trace o (callback env req)) = []
    /\ logged_errors (trace o (callback env req)) = [].
Proof.
  intros L Hstate Hbad.
  assert (Hurl : match js_get state "redirectURL" with
                 | inl _ => True
                 | inr v => exists e, new_URL_of v = inl e
                 end).
  { unfold redirectURL_absent_or_unparseable in Hbad.
    destruct (js_get state "redirectURL") as [e|v]; [exact I|].
    destruct v; try exact Hbad.
    apply (new_URL_needs_scheme P L). reflexivity. }
  unfold trace, result_of. rewrite callback_run. cbv zeta. rewrite Hstate.
  destruct (requestURL req) as [e|ru];
    [exists e; repeat split; reflexivity|].
  destruct (js_get state "redirectURL") as [e|v];
    [exists e; repeat split; reflexivity|].
  destruct Hurl as [e He]. rewrite He. exists e. repeat split; reflexivity.
Qed.

(** Every run executes a prefix of the same two command lines. *)
Lemma executed_commands (env : process_env) (req : request) (o : oracle) :
  executed (trace o (callback env req)) = []
  \/ executed (trace o (callback env req)) = [store_command]
  \/ executed (trace o (callback env req)) = [store_command; open_command].
Proof.
  unfold_handlers. all_runs; auto.
Qed.

End Properties.

(** C10.  The command lines given to [exec] are two constants.  Whatever the
    platform, the environment, the request and the answers of the outside
    world, a run executes nothing, the first command, or the first command
    and then the second; so in any two runs the k-th commands agree, and
    nothing of a request reaches a command line. *)
Theorem commands_are_constants (P1 P2 : Platform) (env1 env2 : process_env)
    (req1 req2 : request) (o1 o2 : oracle) :
  let commands1 := executed (trace o1 (callback (P := P1) env1 req1)) in
  let commands2 := executed (trace o2 (callback (P := P2) env2 req2)) in
  (exists n, commands1 = firstn n [store_command; open_command])
  /\ (exists n, commands2 = firstn n [store_command; open_command])
  /\ forall k a b, nth_error commands1 k = Some a -> nth_error commands2 k = Some b -> a = b.
Proof.
  intros commands1 commands2.
  assert (H1 : exists n, commands1 = firstn n [store_command; open_command]).
  { destruct (executed_commands (P := P1) env1 req1 o1) as [H|[H|H]];
      [exists 0%nat|exists 1%nat|exists 2%nat]; exact H. }
  assert (H2 : exists n, commands2 = firstn n [store_command; open_command]).
  { destruct (executed_commands (P := P2) env2 req2 o2) as [H|[H|H]];
      [exists 0%nat|exists 1%nat|exists 2%nat]; exact H. }
  split; [exact H1|split; [exact H2|]].
  destruct H1 as [n1 ->], H2 as [n2 ->]. intros k a b Ha Hb.
  assert (Hnth : forall n (l : list string) i c,
             nth_error (firstn n l) i = Some c -> nth_error l i = Some c).
  { induction n as [|n IH]; intros l i c Hc; destruct l, i; cbn in *;
      try discriminate Hc; eauto. }
  apply Hnth in Ha, Hb. congruence.
Qed.

(** ** The reference platform and the sample runs *)

Lemma break_at_absent (sep : ascii) (s : string) :
  mentions sep s = false -> snd (break_at sep s) = None.
Proof.
  induction s as [|c r IH]; [reflexivity|]. cbn. intros H.
  apply orb_false_iff in H as [Hc Hr]. rewrite Hc.
  specialize (IH Hr). destruct (break_at sep r). exact IH.
Qed.

Lemma reference_platform_laws : PlatformLaws reference_platform.
Proof.
  split.
  - intros s Hs. cbn. unfold Ref.new_URL.
    pose proof (break_at_absent ":" s Hs) as H.
    destruct (break_at ":" s) as [a b]. cbn in H. subst b. eexists. reflexivity.
  - eexists. vm_compute. reflexivity.
Qed.

Ltac pick_event := repeat first [left; reflexivity | right].



(** The forwarded request of the scenario keeps [state] and [code] as they
    came. *)
Lemma forward_target_preserves_witness :
  responses (trace (scripted all_well)
               (callback (P := reference_platform) env_pipeline req_forward))
  = [Redirect 302
       "https://other.example.com/oauth2/callback?state=%7B%22redirectURL%22%3A%22https%3A%2F%2Fother.example.com%22%7D&code=ABC"]
  /\ urlencoded_parse
       "state=%7B%22redirectURL%22%3A%22https%3A%2F%2Fother.example.com%22%7D&code=ABC"
     = [("state", state_for "https://other.example.com"); ("code", "ABC")].
Proof.
  edestruct (forward_target_preserves (P := reference_platform) env_pipeline req_forward
               (scripted all_well)) as (t & s & Htarget & _ & _ & Hresp & _);
    [vm_compute; reflexivity|vm_compute; reflexivity|vm_compute; reflexivity
     |vm_compute; reflexivity|vm_compute; discriminate|vm_compute; reflexivity
     |reflexivity|].
  vm_compute in Htarget. injection Htarget as <-.
  split; [exact Hresp|]. vm_compute. reflexivity.
Defined.

(** C2, as stated, fails when the [code] parameter is not a single string.
    A callback with [?code=a&code=b] is forwarded with the one value [a,b]:
    the two values that came are not passed through.  A callback with
    [?code[toString]=x] takes the forward branch and throws there: no redirect
    is sent and nothing is carried over. *)
Lemma forward_does_not_pass_code_through :
  query_get req_code_twice "code" = VArray [VString "a"; VString "b"]
  /\ responses (trace (scripted all_well)
                  (callback (P := reference_platform) env_pipeline req_code_twice))
     = [Redirect 302
          "https://other.example.com/oauth2/callback?state=%7B%22redirectURL%22%3A%22https%3A%2F%2Fother.example.com%22%7D&code=a%2Cb"]
  /\ urlencoded_parse
       "state=%7B%22redirectURL%22%3A%22https%3A%2F%2Fother.example.com%22%7D&code=a%2Cb"
     = [("state", state_for "https://other.example.com"); ("code", "a,b")]
  /\ query_get req_code_object "code" = VObject [("toString", VString "x")]
  /\ run (scripted all_well)
       (callback (P := reference_platform) env_pipeline req_code_object)
     = ([existT (SetTimeout (1000 * 60 * 10)) tt], Uncaught cannot_convert).
Proof. repeat split; vm_compute; reflexivity. Qed.

(** A [redirectURL] with an opaque path keeps it: the assignment to
    [pathname] does nothing on [mailto:user@example.com]. *)
Example forward_keeps_opaque_path :
  exists (u : URL) (t : URL_object),
    new_URL (Platform := reference_platform) "mailto:user@example.com" = inr u
    /\ forward_target u req_mailto = inr t
    /\ pathname t = "user@example.com"
    /\ responses (trace (scripted all_well)
                    (callback (P := reference_platform) env_pipeline req_mailto))
       = [Redirect 302
            "mailto:user@example.com?state=%7B%22redirectURL%22%3A%22mailto%3Auser%40example.com%22%7D&code=ABC"].
Proof. do 2 eexists. repeat split; vm_compute; reflexivity. Qed.

(** A [redirectURL] that has a query: its parameters are decoded and written
    again, so a byte that is not UTF-8 comes out as U+FFFD. *)
Example forward_rewrites_existing_query :
  responses (trace (scripted all_well)
               (callback (P := reference_platform) env_pipeline
                  (callback_request
                     [("code", VString "ABC");
                      ("state", VString (state_for "https://other.example.com/?a=%FF"))])))
  = [Redirect 302
       "https://other.example.com/oauth2/callback?a=%EF%BF%BD&state=%7B%22redirectURL%22%3A%22https%3A%2F%2Fother.example.com%2F%3Fa%3D%25FF%22%7D&code=ABC"].
Proof. vm_compute. reflexivity. Qed.

(** The first CLI call exits with a non-zero status: one 403, the error in
    the log. *)
Lemma failure_answers_generic_403_witness :
  responses (trace (scripted store_fails)
               (callback (P := reference_platform) env_pipeline req_local))
  = [Send 403 "Unexpected internal error"]
  /\ logged_errors (trace (scripted store_fails)
                      (callback (P := reference_platform) env_pipeline req_local))
     = [mk_error "Error" "Command failed: sfdx force:auth:sfdxurl:store"].
Proof.
  apply (failure_answers_generic_403 (P := reference_platform) env_pipeline req_local
           (scripted store_fails)
           (existT (Exec store_command)
              (inl (mk_error "Error" "Command failed: sfdx force:auth:sfdxurl:store")))).
  - vm_compute. pick_event.
  - reflexivity.
Defined.

(** A pipeline app writes the credential of its environment and reads no
    per-instance file; a review app reads its file and writes what it
    read. *)
Lemma credential_source_witness :
  (file_reads (trace (scripted all_well)
                 (callback (P := reference_platform) env_pipeline req_local)) = []
   /\ file_writes (trace (scripted all_well)
                     (callback (P := reference_platform) env_pipeline req_local))
      = [Some "force://PlatformCLI::token@org.my.salesforce.com"])
  /\ (file_reads (trace (scripted all_well)
                    (callback (P := reference_platform) env_review req_local))
      = ["vendor/sfdx/ra-app-pr-7"]
      /\ file_writes (trace (scripted all_well)
                        (callback (P := reference_platform) env_review req_local))
         = [Some "force://review@scratch"]).
Proof.
  split.
  - destruct (credential_source (P := reference_platform) env_pipeline req_local
                (scripted all_well)) as [_ Hlocal].
    edestruct Hlocal as [Henv _]; [vm_compute; pick_event|].
    edestruct Henv as (Hreads & _ & Hwrites & _);
      [reflexivity|vm_compute; discriminate|].
    split; [exact Hreads|].
    eapply Hwrites. vm_compute. pick_event.
  - destruct (credential_source (P := reference_platform) env_review req_local
                (scripted all_well)) as [_ Hlocal].
    edestruct Hlocal as [_ Hfile]; [vm_compute; pick_event|].
    destruct Hfile as (Hreads & Hdata); [left; reflexivity|].
    split; [exact Hreads|].
    edestruct Hdata as (_ & Hwrites & _); [vm_compute; pick_event|].
    eapply Hwrites. vm_compute. pick_event.
Defined.

(** A callback without a [state] parameter: the SyntaxError of [JSON.parse]
    leaves the handler. *)
Lemma malformed_state_is_uncaught_witness :
  exists e,
    result_of (scripted all_well)
      (callback (P := reference_platform) env_pipeline req_no_state) = Uncaught e
    /\ calls (trace (scripted all_well)
                (callback (P := reference_platform) env_pipeline req_no_state))
       = [SetTimeout (1000 * 60 * 10)]
    /\ responses (trace (scripted all_well)
                    (callback (P := reference_platform) env_pipeline req_no_state))
       = []
    /\ logged_errors (trace (scripted all_well)
                        (callback (P := reference_platform) env_pipeline req_no_state))
       = []
    /\ (forall ru, requestURL (P := reference_platform) req_no_state = inr ru ->
          JSON_parse_of (P := reference_platform) (query_get req_no_state "state") = inl e).
Proof.
  apply (malformed_state_is_uncaught (P := reference_platform) env_pipeline req_no_state
           (scripted all_well) reference_platform_laws).
  left. reflexivity.
Defined.

(** The second CLI call exits with status 0 and prints [{"result":{}}]: the
    output is JSON, its [result] has no [url], and the handler answers with a
    redirect to the text [undefined] instead of the 403. *)
Lemma open_result_without_url_is_redirected_witness :
  In (open_command, inr (cli_output "{}"))
    (exec_answers (trace (scripted open_without_url)
                     (callback (P := reference_platform) env_pipeline req_local)))
  /\ JSON_parse (Platform := reference_platform) (stdout (cli_output "{}"))
     = inr (VObject [("result", VObject [])])
  /\ responses (trace (scripted open_without_url)
                  (callback (P := reference_platform) env_pipeline req_local))
     = [Redirect 302 "undefined"]
  /\ logged_errors (trace (scripted open_without_url)
                      (callback (P := reference_platform) env_pipeline req_local))
     = [].
Proof.
  split; [vm_compute; pick_event|].
  split; [vm_compute; reflexivity|].
  eapply (open_result_without_url_is_redirected (P := reference_platform) env_pipeline
            req_local (scripted open_without_url) (cli_output "{}")).
  - vm_compute. pick_event.
  - vm_compute. reflexivity.
  - reflexivity.
  - reflexivity.
Defined.

(** The second CLI call exits with a non-zero status: one 403. *)
Lemma cli_open_failure_answers_403_witness :
  responses (trace (scripted open_fails)
               (callback (P := reference_platform) env_pipeline req_local))
  = [Send 403 "Unexpected internal error"].
Proof.
  apply (cli_open_failure_answers_403 (P := reference_platform) env_pipeline req_local
           (scripted open_fails)
           (inl (mk_error "Error" "Command failed: sfdx force:org:open"))).
  - vm_compute. pick_event.
  - exact I.
Defined.



(** The home page of the sample instance. *)
Lemma home_redirects_with_state_witness :
  exists (t : URL_object) (state : string),
    responses (trace (scripted all_well)
                 (home (P := reference_platform) env_pipeline req_home))
    = [Redirect 302 (href t)]
    /\ state = state_for "https://app.herokuapp.com"
    /\ searchParams t
       = [("response_type", "code"); ("client_id", "client-id");
          ("redirect_uri", "https://app.example.com/oauth2/callback");
          ("scope", "id"); ("state", state)].
Proof.
  edestruct (home_redirects_with_state (P := reference_platform) env_pipeline req_home
               (scripted all_well))
    as (t & state & Hresp & _ & _ & Hstate & Hparams & _);
    [vm_compute; reflexivity|].
  exists t, state. split; [exact Hresp|]. split.
  - rewrite Hstate. vm_compute. reflexivity.
  - rewrite Hparams, Hstate. vm_compute. reflexivity.
Defined.

(** A state that is the empty object has no [redirectURL]. *)
Lemma bad_redirectURL_is_uncaught_witness :
  exists e,
    result_of (scripted all_well)
      (callback (P := reference_platform) env_pipeline req_empty_state) = Uncaught e
    /\ calls (trace (scripted all_well)
                (callback (P := reference_platform) env_pipeline req_empty_state))
       = [SetTimeout (1000 * 60 * 10)]
    /\ authorizations (trace (scripted all_well)
                         (callback (P := reference_platform) env_pipeline req_empty_state))
       = []
    /\ responses (trace (scripted all_well)
                    (callback (P := reference_platform) env_pipeline req_empty_state))
       = []
    /\ logged_errors (trace (scripted all_well)
                        (callback (P := reference_platform) env_pipeline req_empty_state))
       = [].
Proof.
  apply (bad_redirectURL_is_uncaught (P := reference_platform) env_pipeline
           req_empty_state (scripted all_well) (VObject [])
           reference_platform_laws).
  - vm_compute. reflexivity.
  - exact I.
Defined.

(** ** The scenarios of the specification, evaluated *)

Example local_completion_redirects_to_session :
  responses (trace (scripted all_well)
               (callback (P := reference_platform) env_pipeline req_local))
  = [Redirect 302 "https://org.my.salesforce.com/secret"].
Proof. vm_compute. reflexivity. Qed.

Example home_location :
  responses (trace (scripted all_well)
               (home (P := reference_platform) env_pipeline req_home))
  = [Redirect 302
       "https://login.salesforce.com/services/oauth2/authorize?response_type=code&client_id=client-id&redirect_uri=https%3A%2F%2Fapp.example.com%2Foauth2%2Fcallback&scope=id&state=%7B%22redirectURL%22%3A%22https%3A%2F%2Fapp.herokuapp.com%22%7D"].
Proof. vm_compute. reflexivity. Qed.

(** A callback without a [code] parameter is forwarded with the text
    [undefined] as its code. *)
Example forward_without_code :
  responses (trace (scripted all_well)
               (callback (P := reference_platform) env_pipeline
                  (callback_request
                     [("state", VString (state_for "https://other.example.com"))])))
  = [Redirect 302
       "https://other.example.com/oauth2/callback?state=%7B%22redirectURL%22%3A%22https%3A%2F%2Fother.example.com%22%7D&code=undefined"].
Proof. vm_compute. reflexivity. Qed.

(** * Further properties of the handlers *)

Section Handlers.

Context {P : Platform}.

(** X1.  Every run of the callback handler begins by setting the timeout.
    After that it either throws before any other call, sending nothing, or
    returns having sent exactly one response, which is a 302 redirect or the
    403 with the fixed body. *)
Theorem callback_one_response_or_throw (env : process_env) (req : request) (o : oracle) :
  (exists e,
      result_of o (callback env req) = Uncaught e
      /\ calls (trace o (callback env req)) = [SetTimeout (1000 * 60 * 10)])
  \/ (result_of o (callback env req) = Returned tt
      /\ (exists rest,
             calls (trace o (callback env req)) = SetTimeout (1000 * 60 * 10) :: rest)
      /\ exists r,
           responses (trace o (callback env req)) = [r]
           /\ (r = Send 403 "Unexpected internal error" \/ exists loc, r = Redirect 302 loc)).
Proof.
  unfold_handlers. all_runs.
  all: first
         [ left; eexists; split; reflexivity
         | right; split; [reflexivity|]; split; [eexists; reflexivity|];
           eexists; split; [reflexivity|];
           first [left; reflexivity | right; eexists; reflexivity] ].
Qed.

(** X2.  The 403 and the error log go together: a run of the callback
    handler either logs no error and sends no 403, or logs exactly one error
    and sends the 403 as its only response. *)
Theorem callback_403_iff_error_logged (env : process_env) (req : request) (o : oracle) :
  (logged_errors (trace o (callback env req)) = []
   /\ ~ In (Send 403 "Unexpected internal error") (responses (trace o (callback env req))))
  \/ (exists e,
        logged_errors (trace o (callback env req)) = [e]
        /\ responses (trace o (callback env req)) = [Send 403 "Unexpected internal error"]).
Proof.
  unfold_handlers. all_runs.
  all: first
         [ right; eexists; split; reflexivity
         | left; split; [reflexivity|]; cbn; intros [H|H]; [discriminate H|exact H]
         | left; split; [reflexivity|]; cbn; intros H; exact H ].
Qed.

(** X3.  When the second CLI call succeeds and its output parses as JSON with
    a [result] that has a [url], the handler returns with one response.  If
    the [url] converts to a string, the response is a 302 redirect to that
    string and nothing is logged as an error.  If it does not (an object with
    a member named [toString] that is not a function), the conversion throws
    inside [res.redirect]; the error is logged and the response is the
    403. *)
Theorem session_url_is_redirect_target (env : process_env) (req : request) (o : oracle)
    (out : exec_output) (jsonResult r url : jsval) :
  In (open_command, inr out) (exec_answers (trace o (callback env req))) ->
  JSON_parse (stdout out) = inr jsonResult ->
  js_get jsonResult "result" = inr r ->
  js_get r "url" = inr url ->
  result_of o (callback env req) = Returned tt
  /\ match ToString url with
     | inr location =>
         responses (trace o (callback env req)) = [Redirect 302 location]
         /\ logged_errors (trace o (callback env req)) = []
     | inl e =>
         responses (trace o (callback env req)) = [Send 403 "Unexpected internal error"]
         /\ logged_errors (trace o (callback env req)) = [e]
     end.
Proof.
  revert out jsonResult r url. unfold_handlers. all_runs.
  all: intros out jsonResult r url Hin Hj Hr Hu; cbn in Hin.
  all: repeat (destruct Hin as [Hin|Hin];
               [inversion Hin; subst;
                try (exfalso; match goal with
                              | H : store_command = open_command |- _ =>
                                  vm_compute in H; discriminate H
                              end)|]);
       try contradiction.
  all: try congruence.
  all: repeat match goal with
              | H : ?x = inr _, H' : ?x = inr _ |- _ =>
                  rewrite H in H'; injection H' as <-
              end.
  all: repeat match goal with
              | H : ToString _ = _ |- _ => rewrite H
              end.
  all: repeat split; reflexivity.
Qed.

(** X4.  The two CLI calls are strictly sequential and are not retried: the
    second command is executed only after the first has succeeded, and then
    the run holds exactly these two executions, each once, in this order. *)
Theorem cli_calls_are_sequential (env : process_env) (req : request) (o : oracle)
    (answer : result exec_output) :
  In (open_command, answer) (exec_answers (trace o (callback env req))) ->
  exists out,
    exec_answers (trace o (callback env req))
    = [(store_command, inr out); (open_command, answer)].
Proof.
  revert answer. unfold_handlers. all_runs.
  all: intros answer Hin; cbn in Hin.
  all: repeat (destruct Hin as [Hin|Hin];
               [inversion Hin; subst;
                try (exfalso; match goal with
                              | H : store_command = open_command |- _ =>
                                  vm_compute in H; discriminate H
                              end)|]);
       try contradiction.
  all: eexists; reflexivity.
Qed.

(** X5.  The handler reads or writes a file or starts a process only after a
    successful code exchange: if a run of the callback handler contains any
    such call, its second call is the exchange of [req.query.code], made once,
    and the exchange succeeded. *)
Theorem side_effects_need_authorization (env : process_env) (req : request) (o : oracle)
    (call : effect) :
  In call (calls (trace o (callback env req))) ->
  touches_system call = true ->
  (exists rest,
      calls (trace o (callback env req))
      = SetTimeout (1000 * 60 * 10) :: Authorize (query_get req "code") :: rest)
  /\ exists userInfo,
       authorize_answers (trace o (callback env req))
       = [(query_get req "code", inr userInfo)].
Proof.
  revert call. unfold_handlers. all_runs.
  all: intros call Hin Hcall; cbn in Hin.
  all: repeat (destruct Hin as [<-|Hin]; [try discriminate Hcall|]); try contradiction.
  all: split; eexists; reflexivity.
Qed.


(** X7.  Nothing but a failing call stops the local flow before the second
    CLI call.  In a run that makes the code exchange and in which no call
    fails, the handler opens the credential file, writes the resolved
    credential, whatever it is (an empty per-instance file included), and
    executes the two commands in order. *)
Theorem no_failure_runs_both_commands (env : process_env) (req : request) (o : oracle) :
  authorizations (trace o (callback env req)) <> [] ->
  failures (trace o (callback env req)) = [] ->
  exists cred,
    (if truthy (SFDX_AUTH_URL env) then SFDX_AUTH_URL env = Some cred
     else read_answers (trace o (callback env req)) = [(review_app_file env, inr cred)])
    /\ opened (trace o (callback env req)) = [(sfdxAuthUrlFilePath, "w")]
    /\ file_writes (trace o (callback env req)) = [Some cred]
    /\ executed (trace o (callback env req)) = [store_command; open_command].
Proof.
  unfold_handlers.
  destruct (SFDX_AUTH_URL env) as [cred|] eqn:Henv; cbn [truthy];
    [destruct (cred =? "") eqn:Hcred|].
  all: all_runs.
  all: intros Hauth Hfail; try congruence; try discriminate Hfail.
  all: eexists; repeat split; reflexivity.
Qed.

(** X8.  Whenever the code exchange succeeds, the handler prints two lines
    with [console.log] and no others: the path of the credential file, and
    the credential string of the environment in clear ([undefined] when the
    variable is not set).  A credential read from the per-instance file is
    not printed. *)
Theorem credential_is_logged (env : process_env) (req : request) (o : oracle)
    (userInfo : userinfo) :
  In (query_get req "code", inr userInfo)
    (authorize_answers (trace o (callback env req))) ->
  logged (trace o (callback env req))
  = [[LogString ("sfdxAuthUrlFilePath=" ++ "vendor/sfdx/open-app-sfdxurl")];
     [LogString ("sfdxAuthUrlFileData=" ++ str_or_undefined (SFDX_AUTH_URL env))]].
Proof.
  revert userInfo. unfold_handlers. all_runs.
  all: intros userInfo Hin; cbn in Hin.
  all: repeat (destruct Hin as [Hin|Hin]; [try discriminate Hin|]); try contradiction.
  all: reflexivity.
Qed.

(** X9.  The home page does not look at the request: for one environment,
    any two requests and any answers of the outside world give the same calls
    and the same outcome.  The home page never exchanges a code and never
    touches a file or starts a process. *)
Theorem home_ignores_request (env : process_env) (req1 req2 : request) (o1 o2 : oracle) :
  calls (trace o1 (home env req1)) = calls (trace o2 (home env req2))
  /\ result_of o1 (home env req1) = result_of o2 (home env req2)
  /\ authorizations (trace o1 (home env req1)) = []
  /\ forall call, In call (calls (trace o1 (home env req1))) -> touches_system call = false.
Proof.
  unfold trace, result_of, run, home.
  destruct (new_URL _) as [e|u]; cbn.
  - repeat split; try reflexivity. intros call [].
  - repeat split; try reflexivity.
    intros call [<-|[<-|[]]]; reflexivity.
Qed.

(** X10.  When the authorization URL built from the environment does not
    parse as a URL, the home page throws that error before making any call:
    nothing is logged and no response is sent. *)
Theorem home_throws_on_bad_authorization_url (env : process_env) (req : request)
    (o : oracle) (e : js_error) :
  new_URL (getAuthorizationUrl (oauth2 env) [("scope", "id")]) = inl e ->
  run o (home env req) = ([], Uncaught e).
Proof.
  intros He. unfold run, home. rewrite He. reflexivity.
Qed.

(** X11.  Forwarding stops after one hop.  Take a callback that is forwarded,
    and a second request that carries the forwarded [state] and [code] (the
    string forms of the first request's values) and arrives under the host
    name of [redirectURL].  The handler that receives the second request does
    not forward it again: its first call after the timeout is the exchange of
    the carried code. *)
Theorem forwarding_stops_after_one_hop (env env' : process_env) (req req' : request)
    (o' : oracle) (ru u ru' : URL) (st rv : jsval) (s c : string) :
  requestURL req = inr ru ->
  JSON_parse_of (query_get req "state") = inr st ->
  js_get st "redirectURL" = inr rv ->
  new_URL_of rv = inr u ->
  hostname u <> hostname ru ->
  ToString (query_get req "state") = inr s ->
  ToString (query_get req "code") = inr c ->
  query_get req' "state" = VString s ->
  query_get req' "code" = VString c ->
  requestURL req' = inr ru' ->
  hostname ru' = hostname u ->
  (exists rest,
      calls (trace o' (callback env' req'))
      = SetTimeout (1000 * 60 * 10) :: Authorize (VString c) :: rest)
  /\ authorizations (trace o' (callback env' req')) = [VString c].
Proof.
  intros _ Hst Hrv Hu _ Hs _ Hstate' Hcode' Hru' Hhost.
  assert (Hst' : JSON_parse_of (query_get req' "state") = inr st).
  { rewrite Hstate'. unfold JSON_parse_of in Hst |- *. cbn [ToString].
    rewrite Hs in Hst. exact Hst. }
  unfold trace. rewrite callback_run. cbv zeta.
  rewrite Hru', Hst', Hcode', Hrv, Hu, Hhost.
  rewrite String.eqb_refl.
  split; [eexists; reflexivity|].
  cbn [fst authorizations flat_map projT1 app]. f_equal.
  destruct (o' _ (Authorize _)); unfold_handlers; all_runs; reflexivity.
Qed.

(** X12.  The handler does not check that a [code] came with the callback.
    When the parameter is missing, a local callback attempts the exchange
    with [undefined], and a forwarded callback carries the text [undefined]
    as the value of [code], whatever the path of [redirectURL]. *)
Theorem missing_code_is_passed_on (env : process_env) (req : request) (o : oracle)
    (ru u : URL) (st rv : jsval) :
  requestURL req = inr ru ->
  JSON_parse_of (query_get req "state") = inr st ->
  js_get st "redirectURL" = inr rv ->
  new_URL_of rv = inr u ->
  query_get req "code" = VUndefined ->
  (hostname u = hostname ru ->
     authorizations (trace o (callback env req)) = [VUndefined])
  /\ (hostname u <> hostname ru ->
        exists (t : URL_object) (s : string),
          forward_target u req = inr t
          /\ ToString (query_get req "state") = inr s
          /\ responses (trace o (callback env req)) = [Redirect 302 (href t)]
          /\ searchParams t
             = (searchParams (URL_object_of u) ++ [("state", s); ("code", "undefined")])%list).
Proof.
  intros Hru Hst Hrv Hu Hcode.
  unfold trace. rewrite callback_run. cbv zeta. rewrite Hru, Hst, Hrv, Hu.
  split.
  - intros Heq. apply String.eqb_eq in Heq. rewrite Heq, Hcode.
    cbn [fst authorizations flat_map projT1 app]. f_equal.
    destruct (o _ (Authorize _)); unfold_handlers; all_runs; reflexivity.
  - intros Hne. apply String.eqb_neq in Hne. rewrite Hne.
    unfold JSON_parse_of in Hst.
    destruct (ToString (query_get req "state")) as [e|s] eqn:Hs; [discriminate Hst|].
    unfold forward_target. rewrite Hs, Hcode. cbn [ToString].
    eexists. exists s.
    split; [reflexivity|]. split; [reflexivity|]. split; [reflexivity|].
    destruct (searchParams_after_append
                (searchParams_append (set_pathname (URL_object_of u) "/oauth2/callback")
                   "state" s) "code" "undefined") as [-> _].
    destruct (searchParams_after_append
                (set_pathname (URL_object_of u) "/oauth2/callback") "state" s) as [-> _].
    rewrite set_pathname_keeps_searchParams, <- app_assoc. reflexivity.
Qed.

End Handlers.

(** ** Sample runs for the further properties *)

Lemma session_url_is_redirect_target_witness :
  responses (trace (scripted all_well)
               (callback (P := reference_platform) env_pipeline req_local))
  = [Redirect 302 "https://org.my.salesforce.com/secret"]
  /\ responses (trace (scripted open_with_object_url)
                  (callback (P := reference_platform) env_pipeline req_local))
     = [Send 403 "Unexpected internal error"]
  /\ logged_errors (trace (scripted open_with_object_url)
                      (callback (P := reference_platform) env_pipeline req_local))
     = [cannot_convert].
Proof.
  split.
  - edestruct (session_url_is_redirect_target (P := reference_platform) env_pipeline
                 req_local (scripted all_well) login_url_output) as (_ & Hmatch);
      [vm_compute; pick_event|vm_compute; reflexivity|vm_compute; reflexivity
       |vm_compute; reflexivity|].
    cbn [ToString] in Hmatch. destruct Hmatch as (Hresp & _). exact Hresp.
  - edestruct (session_url_is_redirect_target (P := reference_platform) env_pipeline
                 req_local (scripted open_with_object_url)
                 object_url_output) as (_ & Hmatch);
      [vm_compute; pick_event|vm_compute; reflexivity|vm_compute; reflexivity
       |vm_compute; reflexivity|].
    vm_compute in Hmatch. exact Hmatch.
Defined.

Lemma cli_calls_are_sequential_witness :
  exists out,
    exec_answers (trace (scripted open_fails)
                    (callback (P := reference_platform) env_pipeline req_local))
    = [(store_command, inr out);
       (open_command, inl (mk_error "Error" "Command failed: sfdx force:org:open"))].
Proof.
  apply (cli_calls_are_sequential (P := reference_platform) env_pipeline req_local
           (scripted open_fails)).
  vm_compute. pick_event.
Defined.

Lemma side_effects_need_authorization_witness :
  exists userInfo,
    authorize_answers (trace (scripted all_well)
                         (callback (P := reference_platform) env_pipeline req_local))
    = [(VString "ABC", inr userInfo)].
Proof.
  edestruct (side_effects_need_authorization (P := reference_platform) env_pipeline
               req_local (scripted all_well) (Exec store_command)) as (_ & Hauth);
    [vm_compute; pick_event|reflexivity|].
  exact Hauth.
Defined.


(** An empty per-instance file: the empty credential is written and both
    commands run. *)
Lemma no_failure_runs_both_commands_witness :
  file_writes (trace (scripted empty_review_file)
                 (callback (P := reference_platform) env_review req_local))
  = [Some ""]
  /\ executed (trace (scripted empty_review_file)
                 (callback (P := reference_platform) env_review req_local))
     = [store_command; open_command].
Proof.
  edestruct (no_failure_runs_both_commands (P := reference_platform) env_review
               req_local (scripted empty_review_file))
    as (cred & Hcred & _ & Hwrites & Hexec);
    [vm_compute; discriminate|vm_compute; reflexivity|].
  cbn in Hcred. split; [|exact Hexec].
  rewrite Hwrites. f_equal. f_equal.
  vm_compute in Hcred. injection Hcred as <-. reflexivity.
Defined.

Lemma credential_is_logged_witness :
  logged (trace (scripted all_well)
            (callback (P := reference_platform) env_pipeline req_local))
  = [[LogString "sfdxAuthUrlFilePath=vendor/sfdx/open-app-sfdxurl"];
     [LogString "sfdxAuthUrlFileData=force://PlatformCLI::token@org.my.salesforce.com"]].
Proof.
  eapply (credential_is_logged (P := reference_platform) env_pipeline req_local
            (scripted all_well)).
  vm_compute. pick_event.
Defined.

Lemma home_throws_on_bad_authorization_url_witness :
  run (scripted all_well) (home (P := reference_platform) env_bad_login req_home)
  = ([], Uncaught Ref.invalid_url).
Proof.
  apply (home_throws_on_bad_authorization_url (P := reference_platform) env_bad_login
           req_home (scripted all_well)).
  vm_compute. reflexivity.
Defined.

Lemma forwarding_stops_after_one_hop_witness :
  authorizations (trace (scripted all_well)
                    (callback (P := reference_platform) env_review req_at_other))
  = [VString "ABC"].
Proof.
  edestruct (forwarding_stops_after_one_hop (P := reference_platform) env_pipeline
               env_review req_forward req_at_other (scripted all_well))
    as (_ & Hauth);
    [vm_compute; reflexivity|vm_compute; reflexivity|vm_compute; reflexivity
     |vm_compute; reflexivity|vm_compute; discriminate
     |vm_compute; reflexivity|vm_compute; reflexivity
     |vm_compute; reflexivity|vm_compute; reflexivity|vm_compute; reflexivity
     |vm_compute; reflexivity|].
  exact Hauth.
Defined.

Lemma missing_code_is_passed_on_witness :
  responses (trace (scripted all_well)
               (callback (P := reference_platform) env_pipeline req_forward_no_code))
  = [Redirect 302
       "https://other.example.com/oauth2/callback?state=%7B%22redirectURL%22%3A%22https%3A%2F%2Fother.example.com%22%7D&code=undefined"]
  /\ authorizations (trace (scripted all_well)
                        (callback (P := reference_platform) env_pipeline req_local_no_code))
     = [VUndefined].
Proof.
  split.
  - edestruct (missing_code_is_passed_on (P := reference_platform) env_pipeline
                 req_forward_no_code (scripted all_well)) as (_ & Hforward);
      [vm_compute; reflexivity|vm_compute; reflexivity|vm_compute; reflexivity
       |vm_compute; reflexivity|reflexivity|].
    destruct Hforward as (t & s & Htarget & _ & Hresp & _); [vm_compute; discriminate|].
    vm_compute in Htarget. injection Htarget as <-. exact Hresp.
  - edestruct (missing_code_is_passed_on (P := reference_platform) env_pipeline
                 req_local_no_code (scripted all_well)) as (Hlocal & _);
      [vm_compute; reflexivity|vm_compute; reflexivity|vm_compute; reflexivity
       |vm_compute; reflexivity|reflexivity|].
    apply Hlocal. vm_compute. reflexivity.
Defined.
